(** * txnbuild.SetOptions: the set-options operation builder

    A shallow embedding of the set-options builder of [exp/txnbuild], in its
    most complete variant (inflation destination, flags, master weight,
    thresholds, home domain and signer), and the properties of [BuildXDR] and
    of its field handlers.

    Conventions.
    - Go's unsigned 32-bit integers are [Z] with the conversion
      [xdr.to_Uint32] written out as a reduction modulo [2^32].
    - A Go [string] is a byte sequence, so it is a Rocq [string]
      (a list of 8-bit [ascii]); Go's [len] is [String.length].
    - A pointer that is either nil or points at a value ([*xdr.Uint32],
      [*xdr.AccountId], ...) is an [option].
    - A method with a pointer receiver is a function from the receiver's
      state to the new state and an outcome; a nil dereference is the
      outcome [Panicked]. *)

From Stdlib Require Import ZArith List String Ascii Bool Lia.
Import ListNotations.

Open Scope string_scope.
Open Scope Z_scope.

(** ** github.com/stellar/go/support/errors *)

Module errors.

(** A non-nil Go [error]: built by [errors.New], or an error wrapped with a
    message by [errors.Wrap].  The nil error is [None] of [option error]. *)
Inductive error : Type :=
| New (message : string)
| Wrap (cause : error) (message : string).

(** The message given at the outermost level of an error. *)
Definition message_of (e : error) : string :=
  match e with
  | New m => m
  | Wrap _ m => m
  end.

(** The innermost error of a chain of wraps (errors.Cause). *)
Fixpoint Cause (e : error) : error :=
  match e with
  | New m => New m
  | Wrap c _ => Cause c
  end.

End errors.

(** ** github.com/stellar/go/xdr: the wire types the builder fills *)

Module xdr.

Definition Uint32 : Type := Z.

(** The conversion [xdr.Uint32(v)] of an integer to 32 unsigned bits. *)
Definition to_Uint32 (v : Z) : Uint32 := v mod 2 ^ 32.

(** [type String32 string]: the conversion [xdr.String32(s)] keeps the bytes. *)
Definition String32 : Type := string.

Definition to_String32 (s : string) : String32 := s.

(** Modelled from the spec: the binary account key that the address codec
    resolves a textual account reference to ([xdr.AccountId] is not part of
    the builder's source); only its raw key bytes are kept. *)
Record AccountId : Type := { AccountIdKey : string }.

Definition AccountId_zero : AccountId := {| AccountIdKey := "" |}.

(** Modelled from the spec: the binary key of a signer ([xdr.SignerKey]). *)
Record SignerKey : Type := { SignerKeyBytes : string }.

Record Signer : Type := {
  Key : SignerKey;
  Weight : Uint32
}.

(** [xdr.SetOptionsOp]: one optional slot (a pointer, nil when the field is
    left out of the wire payload) per field of the request. *)
Record SetOptionsOp : Type := {
  InflationDest : option AccountId;
  ClearFlags : option Uint32;
  SetFlags : option Uint32;
  MasterWeight : option Uint32;
  LowThreshold : option Uint32;
  MedThreshold : option Uint32;
  HighThreshold : option Uint32;
  HomeDomain : option String32;
  Signer_ : option Signer
}.

Definition SetOptionsOp_zero : SetOptionsOp :=
  {| InflationDest := None; ClearFlags := None; SetFlags := None;
     MasterWeight := None; LowThreshold := None; MedThreshold := None;
     HighThreshold := None; HomeDomain := None; Signer_ := None |}.

Definition OperationType : Type := Z.

(** Modelled from the spec: the "fixed constant identifying set options";
    its number is the one of the set-options arm of the XDR union. *)
Definition OperationTypeSetOptions : OperationType := 5.

(** The operation body: the kind tag and the arm of the set-options kind
    (the arms of the other kinds are never touched by this builder). *)
Record OperationBody : Type := {
  BodyType : OperationType;
  BodySetOptionsOp : option SetOptionsOp
}.

Definition OperationBody_zero : OperationBody :=
  {| BodyType := 0; BodySetOptionsOp := None |}.

Record Operation : Type := {
  SourceAccount : option AccountId;
  Body : OperationBody
}.

(** The Go value [xdr.Operation{}]. *)
Definition Operation_zero : Operation :=
  {| SourceAccount := None; Body := OperationBody_zero |}.

(** Modelled from the spec: [xdr.NewOperationBody] (generated XDR code, not
    part of the builder's source) is the envelope constructor
    "Wrap(kind, payload) -> WireOperation": it tags the payload with the
    operation kind.  It has Go's [(result, error)] signature; for a payload
    of the set-options type it has nothing to reject. *)
Definition NewOperationBody (aType : OperationType) (value : SetOptionsOp)
  : errors.error + OperationBody :=
  inr {| BodyType := aType; BodySetOptionsOp := Some value |}.

End xdr.

(** ** package txnbuild *)

Module txnbuild.

(** [type AccountFlag uint32] *)
Definition AccountFlag : Type := Z.

(** [type Threshold *xdr.Uint32]: nil, or a pointer to a value. *)
Definition Threshold : Type := option xdr.Uint32.

(** [NewThreshold] returns a pointer to the provided value (a [uint8]). *)
Definition NewThreshold (t : Z) : Threshold :=
  let toXDRType := xdr.to_Uint32 t in
  Some toXDRType.

Record Signer : Type := {
  Address : string;
  Weight : Threshold
}.

(** The Go value [Signer{}]. *)
Definition Signer_zero : Signer := {| Address := ""; Weight := None |}.

(** [so.Signer != (Signer{})]: struct comparison, field by field; the weight
    is a pointer, compared with nil. *)
Definition Signer_neq_zero (s : Signer) : bool :=
  negb (String.eqb (Address s) "")
  || match Weight s with Some _ => true | None => false end.

(** [SetOptions]: the exported fields are the request, [destAccountID] and
    [xdrOp] are the builder's own.  The field [Signer] is [Signer_] here, the
    name [Signer] being the one of its type. *)
Record SetOptions : Type := {
  destAccountID : xdr.AccountId;
  InflationDestination : string;
  SetAuthorization : list AccountFlag;
  ClearAuthorization : list AccountFlag;
  MasterWeight : Threshold;
  LowThreshold : Threshold;
  MediumThreshold : Threshold;
  HighThreshold : Threshold;
  HomeDomain : string;
  Signer_ : Signer;
  xdrOp : xdr.SetOptionsOp
}.

(** *** Assignments to the fields the builder writes *)

Definition set_destAccountID (v : xdr.AccountId) (so : SetOptions) : SetOptions :=
  {| destAccountID := v;
     InflationDestination := InflationDestination so;
     SetAuthorization := SetAuthorization so;
     ClearAuthorization := ClearAuthorization so;
     MasterWeight := MasterWeight so;
     LowThreshold := LowThreshold so;
     MediumThreshold := MediumThreshold so;
     HighThreshold := HighThreshold so;
     HomeDomain := HomeDomain so;
     Signer_ := Signer_ so;
     xdrOp := xdrOp so |}.

Definition set_xdrOp (f : xdr.SetOptionsOp -> xdr.SetOptionsOp) (so : SetOptions)
  : SetOptions :=
  {| destAccountID := destAccountID so;
     InflationDestination := InflationDestination so;
     SetAuthorization := SetAuthorization so;
     ClearAuthorization := ClearAuthorization so;
     MasterWeight := MasterWeight so;
     LowThreshold := LowThreshold so;
     MediumThreshold := MediumThreshold so;
     HighThreshold := HighThreshold so;
     HomeDomain := HomeDomain so;
     Signer_ := Signer_ so;
     xdrOp := f (xdrOp so) |}.

Definition set_InflationDest (v : option xdr.AccountId) (op : xdr.SetOptionsOp) :=
  {| xdr.InflationDest := v; xdr.ClearFlags := xdr.ClearFlags op;
     xdr.SetFlags := xdr.SetFlags op; xdr.MasterWeight := xdr.MasterWeight op;
     xdr.LowThreshold := xdr.LowThreshold op; xdr.MedThreshold := xdr.MedThreshold op;
     xdr.HighThreshold := xdr.HighThreshold op; xdr.HomeDomain := xdr.HomeDomain op;
     xdr.Signer_ := xdr.Signer_ op |}.

Definition set_ClearFlags (v : option xdr.Uint32) (op : xdr.SetOptionsOp) :=
  {| xdr.InflationDest := xdr.InflationDest op; xdr.ClearFlags := v;
     xdr.SetFlags := xdr.SetFlags op; xdr.MasterWeight := xdr.MasterWeight op;
     xdr.LowThreshold := xdr.LowThreshold op; xdr.MedThreshold := xdr.MedThreshold op;
     xdr.HighThreshold := xdr.HighThreshold op; xdr.HomeDomain := xdr.HomeDomain op;
     xdr.Signer_ := xdr.Signer_ op |}.

Definition set_SetFlags (v : option xdr.Uint32) (op : xdr.SetOptionsOp) :=
  {| xdr.InflationDest := xdr.InflationDest op; xdr.ClearFlags := xdr.ClearFlags op;
     xdr.SetFlags := v; xdr.MasterWeight := xdr.MasterWeight op;
     xdr.LowThreshold := xdr.LowThreshold op; xdr.MedThreshold := xdr.MedThreshold op;
     xdr.HighThreshold := xdr.HighThreshold op; xdr.HomeDomain := xdr.HomeDomain op;
     xdr.Signer_ := xdr.Signer_ op |}.

Definition set_MasterWeight (v : option xdr.Uint32) (op : xdr.SetOptionsOp) :=
  {| xdr.InflationDest := xdr.InflationDest op; xdr.ClearFlags := xdr.ClearFlags op;
     xdr.SetFlags := xdr.SetFlags op; xdr.MasterWeight := v;
     xdr.LowThreshold := xdr.LowThreshold op; xdr.MedThreshold := xdr.MedThreshold op;
     xdr.HighThreshold := xdr.HighThreshold op; xdr.HomeDomain := xdr.HomeDomain op;
     xdr.Signer_ := xdr.Signer_ op |}.

Definition set_LowThreshold (v : option xdr.Uint32) (op : xdr.SetOptionsOp) :=
  {| xdr.InflationDest := xdr.InflationDest op; xdr.ClearFlags := xdr.ClearFlags op;
     xdr.SetFlags := xdr.SetFlags op; xdr.MasterWeight := xdr.MasterWeight op;
     xdr.LowThreshold := v; xdr.MedThreshold := xdr.MedThreshold op;
     xdr.HighThreshold := xdr.HighThreshold op; xdr.HomeDomain := xdr.HomeDomain op;
     xdr.Signer_ := xdr.Signer_ op |}.

Definition set_MedThreshold (v : option xdr.Uint32) (op : xdr.SetOptionsOp) :=
  {| xdr.InflationDest := xdr.InflationDest op; xdr.ClearFlags := xdr.ClearFlags op;
     xdr.SetFlags := xdr.SetFlags op; xdr.MasterWeight := xdr.MasterWeight op;
     xdr.LowThreshold := xdr.LowThreshold op; xdr.MedThreshold := v;
     xdr.HighThreshold := xdr.HighThreshold op; xdr.HomeDomain := xdr.HomeDomain op;
     xdr.Signer_ := xdr.Signer_ op |}.

Definition set_HighThreshold (v : option xdr.Uint32) (op : xdr.SetOptionsOp) :=
  {| xdr.InflationDest := xdr.InflationDest op; xdr.ClearFlags := xdr.ClearFlags op;
     xdr.SetFlags := xdr.SetFlags op; xdr.MasterWeight := xdr.MasterWeight op;
     xdr.LowThreshold := xdr.LowThreshold op; xdr.MedThreshold := xdr.MedThreshold op;
     xdr.HighThreshold := v; xdr.HomeDomain := xdr.HomeDomain op;
     xdr.Signer_ := xdr.Signer_ op |}.

Definition set_HomeDomain (v : option xdr.String32) (op : xdr.SetOptionsOp) :=
  {| xdr.InflationDest := xdr.InflationDest op; xdr.ClearFlags := xdr.ClearFlags op;
     xdr.SetFlags := xdr.SetFlags op; xdr.MasterWeight := xdr.MasterWeight op;
     xdr.LowThreshold := xdr.LowThreshold op; xdr.MedThreshold := xdr.MedThreshold op;
     xdr.HighThreshold := xdr.HighThreshold op; xdr.HomeDomain := v;
     xdr.Signer_ := xdr.Signer_ op |}.

Definition set_Signer (v : option xdr.Signer) (op : xdr.SetOptionsOp) :=
  {| xdr.InflationDest := xdr.InflationDest op; xdr.ClearFlags := xdr.ClearFlags op;
     xdr.SetFlags := xdr.SetFlags op; xdr.MasterWeight := xdr.MasterWeight op;
     xdr.LowThreshold := xdr.LowThreshold op; xdr.MedThreshold := xdr.MedThreshold op;
     xdr.HighThreshold := xdr.HighThreshold op; xdr.HomeDomain := xdr.HomeDomain op;
     xdr.Signer_ := v |}.

(** *** Methods on [*SetOptions]: state passing, with panics *)

Inductive outcome (A : Type) : Type :=
| Done (a : A)
| Panicked.

Arguments Done {A} a.
Arguments Panicked {A}.

Definition method (A : Type) : Type := SetOptions -> SetOptions * outcome A.

Definition ret {A : Type} (a : A) : method A := fun so => (so, Done a).

Definition bind {A B : Type} (m : method A) (k : A -> method B) : method B :=
  fun so =>
    match m so with
    | (so', Done a) => k a so'
    | (so', Panicked) => (so', Panicked)
    end.

Definition get : method SetOptions := fun so => (so, Done so).

Notation "x <- m ;; k" := (bind m (fun x => k))
  (at level 61, m at next level, right associativity).
Notation "m ;;; k" := (bind m (fun _ => k))
  (at level 61, right associativity).

(** Modelled from the spec: the address codec,
    "Resolve(text) -> Result<BinaryKey, AddressError>", a pure computation
    over the supplied text.  [xdr.AccountId.SetAddress] and
    [xdr.SignerKey.SetAddress] are not part of the builder's source: on
    success they write the key into their receiver, on failure they return
    the error.  The builder is verified for every such codec. *)
Class AddressCodec : Type := {
  AccountId_SetAddress : string -> errors.error + xdr.AccountId;
  SignerKey_SetAddress : string -> errors.error + xdr.SignerKey
}.

Section Builder.

Context {codec : AddressCodec}.

(** [handleInflation] sets the XDR inflation destination.  The slot is the
    address of [so.destAccountID], which [SetAddress] has just written; it is
    modelled by the value read through it. *)
Definition handleInflation : method (option errors.error) := fun so =>
  if negb (String.eqb (InflationDestination so) "") then
    match AccountId_SetAddress (InflationDestination so) with
    | inl err => (so, Done (Some err))
    | inr id =>
        let so := set_destAccountID id so in
        (set_xdrOp (set_InflationDest (Some (destAccountID so))) so, Done None)
    end
  else (so, Done None).

(** [handleSetFlags] sets XDR account flags (a bitmask). *)
Definition handleSetFlags : method unit := fun so =>
  let flags :=
    fold_left (fun flags flag => Z.lor flags (xdr.to_Uint32 flag))
              (SetAuthorization so) 0 in
  if (0 <? List.length (SetAuthorization so))%nat then
    (set_xdrOp (set_SetFlags (Some flags)) so, Done tt)
  else (so, Done tt).

(** [handleClearFlags] unsets XDR account flags (a bitmask). *)
Definition handleClearFlags : method unit := fun so =>
  let flags :=
    fold_left (fun flags flag => Z.lor flags (xdr.to_Uint32 flag))
              (ClearAuthorization so) 0 in
  if (0 <? List.length (ClearAuthorization so))%nat then
    (set_xdrOp (set_ClearFlags (Some flags)) so, Done tt)
  else (so, Done tt).

Definition handleMasterWeight : method unit := fun so =>
  match MasterWeight so with
  | Some _ => (set_xdrOp (set_MasterWeight (MasterWeight so)) so, Done tt)
  | None => (so, Done tt)
  end.

Definition handleLowThreshold : method unit := fun so =>
  match LowThreshold so with
  | Some _ => (set_xdrOp (set_LowThreshold (LowThreshold so)) so, Done tt)
  | None => (so, Done tt)
  end.

Definition handleMediumThreshold : method unit := fun so =>
  match MediumThreshold so with
  | Some _ => (set_xdrOp (set_MedThreshold (MediumThreshold so)) so, Done tt)
  | None => (so, Done tt)
  end.

Definition handleHighThreshold : method unit := fun so =>
  match HighThreshold so with
  | Some _ => (set_xdrOp (set_HighThreshold (HighThreshold so)) so, Done tt)
  | None => (so, Done tt)
  end.

(** [handleHomeDomain] sets the XDR value of the account's home domain. *)
Definition handleHomeDomain : method (option errors.error) := fun so =>
  if negb (String.eqb (HomeDomain so) "") then
    if (32 <? String.length (HomeDomain so))%nat then
      (so, Done (Some (errors.New "HomeDomain must be 32 characters or less")))
    else
      let xdrHomeDomain := xdr.to_String32 (HomeDomain so) in
      (set_xdrOp (set_HomeDomain (Some xdrHomeDomain)) so, Done None)
  else (so, Done None).

(** [handleSigner] sets the XDR value of a signer for the account.  The
    weight pointer is dereferenced first, to fill the weight of the local
    [xdrSigner]; then the address is resolved into its key. *)
Definition handleSigner : method (option errors.error) := fun so =>
  if Signer_neq_zero (Signer_ so) then
    match Weight (Signer_ so) with
    | None => (so, Panicked)
    | Some w =>
        match SignerKey_SetAddress (Address (Signer_ so)) with
        | inl err => (so, Done (Some err))
        | inr key =>
            let xdrSigner := {| xdr.Key := key; xdr.Weight := w |} in
            (set_xdrOp (set_Signer (Some xdrSigner)) so, Done None)
        end
    end
  else (so, Done None).

(** [BuildXDR] returns a fully configured XDR Operation, or the zero
    operation and an error. *)
Definition BuildXDR : method (xdr.Operation * option errors.error) :=
  err <- handleInflation ;;
  match err with
  | Some err =>
      ret (xdr.Operation_zero,
           Some (errors.Wrap err "Failed to set inflation destination address"))
  | None =>
  handleClearFlags ;;;
  handleSetFlags ;;;
  handleMasterWeight ;;;
  handleLowThreshold ;;;
  handleMediumThreshold ;;;
  handleHighThreshold ;;;
  err <- handleHomeDomain ;;
  match err with
  | Some err =>
      ret (xdr.Operation_zero, Some (errors.Wrap err "Failed to set home domain"))
  | None =>
  err <- handleSigner ;;
  match err with
  | Some err =>
      ret (xdr.Operation_zero, Some (errors.Wrap err "Failed to set signer"))
  | None =>
  so <- get ;;
  let opType := xdr.OperationTypeSetOptions in
  match xdr.NewOperationBody opType (xdrOp so) with
  | inl err =>
      ret (xdr.Operation_zero,
           Some (errors.Wrap err "Failed to build XDR OperationBody"))
  | inr body =>
      ret ({| xdr.SourceAccount := None; xdr.Body := body |}, None)
  end
  end end end.

End Builder.

(** *** The earlier snapshots of the builder

    [set_options.go] holds three earlier snapshots of [BuildXDR].  Their
    [SetOptions] has fewer fields; they are embedded over the same record,
    the fields a snapshot does not have being fields it never reads nor
    writes.  Their handlers are, word for word, the ones above. *)

(** The first snapshot: the inflation destination only, handled in line. *)
Module inflation_only.

Section Builder.

Context {codec : AddressCodec}.

Definition BuildXDR : method (xdr.Operation * option errors.error) := fun so =>
  let rest : method (xdr.Operation * option errors.error) :=
    so <- get ;;
    let opType := xdr.OperationTypeSetOptions in
    match xdr.NewOperationBody opType (xdrOp so) with
    | inl err =>
        ret (xdr.Operation_zero,
             Some (errors.Wrap err "Failed to build XDR OperationBody"))
    | inr body =>
        ret ({| xdr.SourceAccount := None; xdr.Body := body |}, None)
    end in
  if negb (String.eqb (InflationDestination so) "") then
    match AccountId_SetAddress (InflationDestination so) with
    | inl err =>
        (so, Done (xdr.Operation_zero,
                   Some (errors.Wrap err "Failed to set inflation destination address")))
    | inr id =>
        let so := set_destAccountID id so in
        let so := set_xdrOp (set_InflationDest (Some (destAccountID so))) so in
        rest so
    end
  else rest so.

End Builder.

End inflation_only.

(** The second snapshot: inflation destination and flags, through the
    handlers; the set flags are handled before the clear flags. *)
Module with_flags.

Section Builder.

Context {codec : AddressCodec}.

Definition BuildXDR : method (xdr.Operation * option errors.error) :=
  err <- handleInflation ;;
  match err with
  | Some err =>
      ret (xdr.Operation_zero,
           Some (errors.Wrap err "Failed to set inflation destination address"))
  | None =>
  handleSetFlags ;;;
  handleClearFlags ;;;
  so <- get ;;
  let opType := xdr.OperationTypeSetOptions in
  match xdr.NewOperationBody opType (xdrOp so) with
  | inl err =>
      ret (xdr.Operation_zero,
           Some (errors.Wrap err "Failed to build XDR OperationBody"))
  | inr body =>
      ret ({| xdr.SourceAccount := None; xdr.Body := body |}, None)
  end
  end.

End Builder.

End with_flags.

(** The third snapshot: the inflation destination in line, then
    [handleSetFlags]; the call of [handleClearFlags] is commented out. *)
Module set_flags_only.

Section Builder.

Context {codec : AddressCodec}.

Definition BuildXDR : method (xdr.Operation * option errors.error) := fun so =>
  let rest : method (xdr.Operation * option errors.error) :=
    handleSetFlags ;;;
    so <- get ;;
    let opType := xdr.OperationTypeSetOptions in
    match xdr.NewOperationBody opType (xdrOp so) with
    | inl err =>
        ret (xdr.Operation_zero,
             Some (errors.Wrap err "Failed to build XDR OperationBody"))
    | inr body =>
        ret ({| xdr.SourceAccount := None; xdr.Body := body |}, None)
    end in
  if negb (String.eqb (InflationDestination so) "") then
    match AccountId_SetAddress (InflationDestination so) with
    | inl err =>
        (so, Done (xdr.Operation_zero,
                   Some (errors.Wrap err "Failed to set inflation destination address")))
    | inr id =>
        let so := set_destAccountID id so in
        let so := set_xdrOp (set_InflationDest (Some (destAccountID so))) so in
        rest so
    end
  else rest so.

End Builder.

End set_flags_only.

End txnbuild.

Import txnbuild.

(** ** Vocabulary of the statements *)

(** A value of Go's [uint32]. *)
Definition is_uint32 (v : Z) : Prop := 0 <= v < 2 ^ 32.

(** The bitwise OR of a sequence of values, as the specification words it. *)
Definition bitwise_or (l : list Z) : Z := fold_right Z.lor 0 l.

(** A request as its caller hands it to [BuildXDR]: the exported fields are
    the caller's, the unexported accumulator [xdrOp] still has its zero
    value. *)
Definition fresh (so : SetOptions) : Prop := xdrOp so = xdr.SetOptionsOp_zero.

(** The exported fields of two builders agree: the same request. *)
Definition same_request (a b : SetOptions) : Prop :=
  InflationDestination a = InflationDestination b
  /\ SetAuthorization a = SetAuthorization b
  /\ ClearAuthorization a = ClearAuthorization b
  /\ MasterWeight a = MasterWeight b
  /\ LowThreshold a = LowThreshold b
  /\ MediumThreshold a = MediumThreshold b
  /\ HighThreshold a = HighThreshold b
  /\ HomeDomain a = HomeDomain b
  /\ Signer_ a = Signer_ b.

(** A new value for a slot, when there is one, replaces the old one. *)
Definition override {A : Type} (new old : option A) : option A :=
  match new with
  | Some v => Some v
  | None => old
  end.

(** The mask the two flag handlers accumulate in their loop. *)
Definition flags_mask (l : list AccountFlag) : xdr.Uint32 :=
  fold_left (fun flags flag => Z.lor flags (xdr.to_Uint32 flag)) l 0.

Definition flags_slot (l : list AccountFlag) : option xdr.Uint32 :=
  match l with
  | [] => None
  | _ :: _ => Some (flags_mask l)
  end.

(** What the six handlers between [handleInflation] and [handleHomeDomain]
    do to the accumulator, slot by slot. *)
Definition fill_op (so : SetOptions) (op : xdr.SetOptionsOp) : xdr.SetOptionsOp :=
  {| xdr.InflationDest := xdr.InflationDest op;
     xdr.ClearFlags := override (flags_slot (ClearAuthorization so)) (xdr.ClearFlags op);
     xdr.SetFlags := override (flags_slot (SetAuthorization so)) (xdr.SetFlags op);
     xdr.MasterWeight := override (MasterWeight so) (xdr.MasterWeight op);
     xdr.LowThreshold := override (LowThreshold so) (xdr.LowThreshold op);
     xdr.MedThreshold := override (MediumThreshold so) (xdr.MedThreshold op);
     xdr.HighThreshold := override (HighThreshold so) (xdr.HighThreshold op);
     xdr.HomeDomain := xdr.HomeDomain op;
     xdr.Signer_ := xdr.Signer_ op |}.

Definition fill (so : SetOptions) : SetOptions := set_xdrOp (fill_op so) so.

(** The operation [BuildXDR] returns around a filled record. *)
Definition wrap (op : xdr.SetOptionsOp) : xdr.Operation :=
  {| xdr.SourceAccount := None;
     xdr.Body := {| xdr.BodyType := xdr.OperationTypeSetOptions;
                    xdr.BodySetOptionsOp := Some op |} |}.

Section Slots.

Context {codec : AddressCodec}.

(** The value each fallible handler stores when it stores one. *)
Definition inflation_slot (so : SetOptions) : option xdr.AccountId :=
  if String.eqb (InflationDestination so) "" then None
  else match AccountId_SetAddress (InflationDestination so) with
       | inr id => Some id
       | inl _ => None
       end.

Definition home_slot (so : SetOptions) : option xdr.String32 :=
  if String.eqb (HomeDomain so) "" then None
  else Some (xdr.to_String32 (HomeDomain so)).

Definition signer_slot (so : SetOptions) : option xdr.Signer :=
  if Signer_neq_zero (Signer_ so) then
    match Weight (Signer_ so), SignerKey_SetAddress (Address (Signer_ so)) with
    | Some w, inr key => Some {| xdr.Key := key; xdr.Weight := w |}
    | _, _ => None
    end
  else None.

(** The accumulator after a build that ran to its end. *)
Definition final_op (so : SetOptions) : xdr.SetOptionsOp :=
  {| xdr.InflationDest := override (inflation_slot so) (xdr.InflationDest (xdrOp so));
     xdr.ClearFlags :=
       override (flags_slot (ClearAuthorization so)) (xdr.ClearFlags (xdrOp so));
     xdr.SetFlags :=
       override (flags_slot (SetAuthorization so)) (xdr.SetFlags (xdrOp so));
     xdr.MasterWeight := override (MasterWeight so) (xdr.MasterWeight (xdrOp so));
     xdr.LowThreshold := override (LowThreshold so) (xdr.LowThreshold (xdrOp so));
     xdr.MedThreshold := override (MediumThreshold so) (xdr.MedThreshold (xdrOp so));
     xdr.HighThreshold := override (HighThreshold so) (xdr.HighThreshold (xdrOp so));
     xdr.HomeDomain := override (home_slot so) (xdr.HomeDomain (xdrOp so));
     xdr.Signer_ := override (signer_slot so) (xdr.Signer_ (xdrOp so)) |}.

(** The inflation destination is not set, or the codec resolves it. *)
Definition inflation_resolves (so : SetOptions) : Prop :=
  InflationDestination so = ""
  \/ exists id, AccountId_SetAddress (InflationDestination so) = inr id.

(** The signer pair is the default one, or it has a weight and the codec
    resolves its address. *)
Definition signer_resolves (so : SetOptions) : Prop :=
  Signer_ so = Signer_zero
  \/ exists w key, Weight (Signer_ so) = Some w
                   /\ SignerKey_SetAddress (Address (Signer_ so)) = inr key.

End Slots.

(** The mask a flag handler leaves in its slot. *)
Definition merged_set (so : SetOptions) : option xdr.Uint32 :=
  xdr.SetFlags (xdrOp (fst (handleSetFlags so))).

Definition merged_clear (so : SetOptions) : option xdr.Uint32 :=
  xdr.ClearFlags (xdrOp (fst (handleClearFlags so))).

(** The record inside a returned operation. *)
Definition record_of (op : xdr.Operation) : option xdr.SetOptionsOp :=
  xdr.BodySetOptionsOp (xdr.Body op).

(** The error every over-long home domain is refused with. *)
Definition home_domain_error : errors.error :=
  errors.Wrap (errors.New "HomeDomain must be 32 characters or less")
              "Failed to set home domain".



(** ** Requests and a codec for the examples *)

(** The struct literal a caller writes: the exported fields, the unexported
    ones at their zero values. *)
Definition request (infl : string) (set clear : list AccountFlag)
    (master low medium high : Threshold) (home : string) (signer : Signer)
  : SetOptions :=
  {| destAccountID := xdr.AccountId_zero;
     InflationDestination := infl;
     SetAuthorization := set;
     ClearAuthorization := clear;
     MasterWeight := master;
     LowThreshold := low;
     MediumThreshold := medium;
     HighThreshold := high;
     HomeDomain := home;
     Signer_ := signer;
     xdrOp := xdr.SetOptionsOp_zero |}.

(** A request that only sets and clears flags, as the tests build them. *)
Definition flags_request (set clear : list AccountFlag) : SetOptions :=
  request "" set clear None None None None "" Signer_zero.

(** A codec to run the examples with: it accepts the texts of 56 bytes that
    start with G and keeps the text as the key. *)
Definition looks_like_address (s : string) : bool :=
  (String.length s =? 56)%nat
  && match s with
     | String "G"%char _ => true
     | _ => false
     end.

(** What the example codec answers to a text it does not accept. *)
Definition invalid_address : errors.error := errors.New "invalid address".

Definition example_codec : AddressCodec :=
  {| AccountId_SetAddress := fun s =>
       if looks_like_address s then inr {| xdr.AccountIdKey := s |}
       else inl invalid_address;
     SignerKey_SetAddress := fun s =>
       if looks_like_address s then inr {| xdr.SignerKeyBytes := s |}
       else inl invalid_address |}.

Definition good_address : string :=
  "GAAAAAAAAAAAAAAAAAAAAAAAAAAAAAAAAAAAAAAAAAAAAAAAAAAAAAAA".

Definition domain32 : string := "aaaaaaaaaaaaaaaaaaaaaaaaaaaa.org".

Definition domain33 : string := "aaaaaaaaaaaaaaaaaaaaaaaaaaaaa.org".

Definition domain40 : string := "aaaaaaaaaaaaaaaaaaaaaaaaaaaaaaaaaaaa.org".



Definition ex_full : SetOptions :=
  request good_address [1; 2; 4] [] (NewThreshold 0) None None None domain32
          {| Address := good_address; Weight := NewThreshold 1 |}.

Definition ex_domain32 : SetOptions :=
  request "" [] [] None None None None domain32 Signer_zero.

Definition ex_domain33 : SetOptions :=
  request "" [] [] None None None None domain33 Signer_zero.

Definition ex_domain40 : SetOptions :=
  request "" [] [] None None None None domain40 Signer_zero.



Definition ex_bad_inflation_domain40 : SetOptions :=
  request "not an address" [] [] None None None None domain40 Signer_zero.

Definition ex_signer_nil_weight : SetOptions :=
  request "" [] [] None None None None ""
          {| Address := good_address; Weight := None |}.



(** ** Vocabulary of the further properties *)

(** The builder with its accumulator back at its zero value. *)
Definition reset (so : SetOptions) : SetOptions :=
  set_xdrOp (fun _ => xdr.SetOptionsOp_zero) so.

(** Every slot the accumulator holds is one whose field is set in the
    request: nothing in it stems from a field that has been emptied since. *)
Definition covered (so : SetOptions) : Prop :=
  (xdr.InflationDest (xdrOp so) <> None -> InflationDestination so <> "")
  /\ (xdr.ClearFlags (xdrOp so) <> None -> ClearAuthorization so <> [])
  /\ (xdr.SetFlags (xdrOp so) <> None -> SetAuthorization so <> [])
  /\ (xdr.MasterWeight (xdrOp so) <> None -> MasterWeight so <> None)
  /\ (xdr.LowThreshold (xdrOp so) <> None -> LowThreshold so <> None)
  /\ (xdr.MedThreshold (xdrOp so) <> None -> MediumThreshold so <> None)
  /\ (xdr.HighThreshold (xdrOp so) <> None -> HighThreshold so <> None)
  /\ (xdr.HomeDomain (xdrOp so) <> None -> HomeDomain so <> "")
  /\ (xdr.Signer_ (xdrOp so) <> None -> Signer_ so <> Signer_zero).

(** Every slot present in [a] is present in [b]. *)
Definition slots_kept (a b : xdr.SetOptionsOp) : Prop :=
  (xdr.InflationDest a <> None -> xdr.InflationDest b <> None)
  /\ (xdr.ClearFlags a <> None -> xdr.ClearFlags b <> None)
  /\ (xdr.SetFlags a <> None -> xdr.SetFlags b <> None)
  /\ (xdr.MasterWeight a <> None -> xdr.MasterWeight b <> None)
  /\ (xdr.LowThreshold a <> None -> xdr.LowThreshold b <> None)
  /\ (xdr.MedThreshold a <> None -> xdr.MedThreshold b <> None)
  /\ (xdr.HighThreshold a <> None -> xdr.HighThreshold b <> None)
  /\ (xdr.HomeDomain a <> None -> xdr.HomeDomain b <> None)
  /\ (xdr.Signer_ a <> None -> xdr.Signer_ b <> None).

(** The request uses the fields of the second snapshot only: no weight, no
    threshold, no home domain, no signer. *)
Definition flags_only (so : SetOptions) : Prop :=
  MasterWeight so = None /\ LowThreshold so = None
  /\ MediumThreshold so = None /\ HighThreshold so = None
  /\ HomeDomain so = "" /\ Signer_ so = Signer_zero.

(** The inflation slot is a pointer to [destAccountID]: when it is present,
    the value read through it is the one of [destAccountID]. *)
Definition inflation_aliased (so : SetOptions) : Prop :=
  xdr.InflationDest (xdrOp so) = None
  \/ xdr.InflationDest (xdrOp so) = Some (destAccountID so).

(** The sequence without its zero values. *)
Definition without_zeros (l : list AccountFlag) : list AccountFlag :=
  filter (fun flag => negb (xdr.to_Uint32 flag =? 0)) l.

(** Further example requests and builders. *)
Definition ex_set_and_clear : SetOptions := flags_request [1; 2; 4] [2].

Definition ex_inflation : SetOptions :=
  request good_address [] [] None None None None "" Signer_zero.

Definition ex_remove_signer : SetOptions :=
  request "" [] [] None None None None ""
          {| Address := good_address; Weight := NewThreshold 0 |}.

(** A builder whose home domain has been emptied after a build that had
    stored [domain32]. *)
Definition ex_emptied_home_domain : SetOptions :=
  set_xdrOp (set_HomeDomain (Some domain32)) ex_inflation.

(** ** Basic facts about the method monad and the handlers *)

Lemma bind_eq {A B : Type} (m : method A) (k : A -> method B) (so : SetOptions) :
  bind m k so =
  match m so with
  | (so', Done a) => k a so'
  | (so', Panicked) => (so', Panicked)
  end.
Proof. reflexivity. Qed.

Lemma bind_done {A B : Type} (m : method A) (k : A -> method B) so so' a :
  m so = (so', Done a) -> bind m k so = k a so'.
Proof. intros H. unfold bind. now rewrite H. Qed.

Lemma handleClearFlags_eq (so : SetOptions) :
  handleClearFlags so =
  (set_xdrOp (fun op =>
     set_ClearFlags (override (flags_slot (ClearAuthorization so)) (xdr.ClearFlags op)) op) so,
   Done tt).
Proof.
  unfold handleClearFlags, flags_slot, flags_mask.
  destruct so as [d i sa ca mw lt mt ht hd sg op]; destruct op, ca; reflexivity.
Qed.

Lemma handleSetFlags_eq (so : SetOptions) :
  handleSetFlags so =
  (set_xdrOp (fun op =>
     set_SetFlags (override (flags_slot (SetAuthorization so)) (xdr.SetFlags op)) op) so,
   Done tt).
Proof.
  unfold handleSetFlags, flags_slot, flags_mask.
  destruct so as [d i sa ca mw lt mt ht hd sg op]; destruct op, sa; reflexivity.
Qed.

Lemma handleMasterWeight_eq (so : SetOptions) :
  handleMasterWeight so =
  (set_xdrOp (fun op =>
     set_MasterWeight (override (MasterWeight so) (xdr.MasterWeight op)) op) so, Done tt).
Proof.
  unfold handleMasterWeight.
  destruct so as [d i sa ca mw lt mt ht hd sg op]; destruct op, mw; reflexivity.
Qed.

Lemma handleLowThreshold_eq (so : SetOptions) :
  handleLowThreshold so =
  (set_xdrOp (fun op =>
     set_LowThreshold (override (LowThreshold so) (xdr.LowThreshold op)) op) so, Done tt).
Proof.
  unfold handleLowThreshold.
  destruct so as [d i sa ca mw lt mt ht hd sg op]; destruct op, lt; reflexivity.
Qed.

Lemma handleMediumThreshold_eq (so : SetOptions) :
  handleMediumThreshold so =
  (set_xdrOp (fun op =>
     set_MedThreshold (override (MediumThreshold so) (xdr.MedThreshold op)) op) so, Done tt).
Proof.
  unfold handleMediumThreshold.
  destruct so as [d i sa ca mw lt mt ht hd sg op]; destruct op, mt; reflexivity.
Qed.

Lemma handleHighThreshold_eq (so : SetOptions) :
  handleHighThreshold so =
  (set_xdrOp (fun op =>
     set_HighThreshold (override (HighThreshold so) (xdr.HighThreshold op)) op) so, Done tt).
Proof.
  unfold handleHighThreshold.
  destruct so as [d i sa ca mw lt mt ht hd sg op]; destruct op, ht; reflexivity.
Qed.

(** The six handlers that cannot fail, run in the order of [BuildXDR], fill
    the accumulator as [fill] says and hand over to what follows. *)
Lemma fill_eq {B : Type} (k : method B) (so : SetOptions) :
  (handleClearFlags ;;; handleSetFlags ;;; handleMasterWeight ;;;
   handleLowThreshold ;;; handleMediumThreshold ;;; handleHighThreshold ;;; k) so
  = k (fill so).
Proof.
  rewrite (bind_done _ _ _ _ _ (handleClearFlags_eq _)).
  rewrite (bind_done _ _ _ _ _ (handleSetFlags_eq _)).
  rewrite (bind_done _ _ _ _ _ (handleMasterWeight_eq _)).
  rewrite (bind_done _ _ _ _ _ (handleLowThreshold_eq _)).
  rewrite (bind_done _ _ _ _ _ (handleMediumThreshold_eq _)).
  rewrite (bind_done _ _ _ _ _ (handleHighThreshold_eq _)).
  reflexivity.
Qed.

Lemma override_idem {A : Type} (n o : option A) :
  override n (override n o) = override n o.
Proof. destruct n; reflexivity. Qed.


Lemma Signer_neq_zero_false (s : Signer) :
  Signer_neq_zero s = false <-> s = Signer_zero.
Proof.
  destruct s as [a [w|]]; unfold Signer_neq_zero, Signer_zero; cbn.
  - rewrite orb_true_r. split; discriminate.
  - rewrite orb_false_r, negb_false_iff, String.eqb_eq.
    split; [now intros -> | now inversion 1].
Qed.

Lemma Signer_neq_zero_true (s : Signer) :
  Signer_neq_zero s = true <-> s <> Signer_zero.
Proof.
  rewrite <- Signer_neq_zero_false. destruct (Signer_neq_zero s); split; congruence.
Qed.

(** Unfolds the handlers and the assignments on a builder given field by
    field, and nothing of the strings, lists and integers in it. *)
Ltac norm :=
  cbv beta iota zeta delta
    [handleInflation handleHomeDomain handleSigner fill fill_op wrap final_op
     inflation_slot home_slot signer_slot
     set_xdrOp set_destAccountID set_InflationDest set_HomeDomain set_Signer
     destAccountID InflationDestination SetAuthorization ClearAuthorization
     MasterWeight LowThreshold MediumThreshold HighThreshold HomeDomain Signer_ xdrOp
     xdr.to_String32
     xdr.InflationDest xdr.ClearFlags xdr.SetFlags xdr.MasterWeight xdr.LowThreshold
     xdr.MedThreshold xdr.HighThreshold xdr.HomeDomain xdr.Signer_
     fst snd negb].

(** The same, with the signer pair given field by field as well. *)
Ltac norm_all :=
  norm; cbv beta iota zeta delta [Signer_neq_zero Address Weight negb orb].

Section BuilderFacts.

Context {codec : AddressCodec}.

(** [BuildXDR], step by fallible step. *)
Lemma BuildXDR_unfold (so : SetOptions) :
  BuildXDR so =
  match handleInflation so with
  | (so1, Panicked) => (so1, Panicked)
  | (so1, Done (Some err)) =>
      (so1, Done (xdr.Operation_zero,
                  Some (errors.Wrap err "Failed to set inflation destination address")))
  | (so1, Done None) =>
      match handleHomeDomain (fill so1) with
      | (so2, Panicked) => (so2, Panicked)
      | (so2, Done (Some err)) =>
          (so2, Done (xdr.Operation_zero,
                      Some (errors.Wrap err "Failed to set home domain")))
      | (so2, Done None) =>
          match handleSigner so2 with
          | (so3, Panicked) => (so3, Panicked)
          | (so3, Done (Some err)) =>
              (so3, Done (xdr.Operation_zero,
                          Some (errors.Wrap err "Failed to set signer")))
          | (so3, Done None) => (so3, Done (wrap (xdrOp so3), None))
          end
      end
  end.
Proof.
  unfold BuildXDR. rewrite bind_eq.
  destruct (handleInflation so) as [so1 [[e|]|]]; try reflexivity.
  rewrite fill_eq, bind_eq.
  destruct (handleHomeDomain (fill so1)) as [so2 [[e|]|]]; try reflexivity.
  rewrite bind_eq.
  destruct (handleSigner so2) as [so3 [[e|]|]]; reflexivity.
Qed.

(** Every build ends in exactly one of five ways, decided by the request in
    the order of the fallible steps. *)
Lemma BuildXDR_cases (so : SetOptions) :
  (InflationDestination so <> ""
   /\ exists e, AccountId_SetAddress (InflationDestination so) = inl e
      /\ BuildXDR so =
         (so, Done (xdr.Operation_zero,
                    Some (errors.Wrap e "Failed to set inflation destination address"))))
  \/ (inflation_resolves so
      /\ (32 < String.length (HomeDomain so))%nat
      /\ exists so', BuildXDR so = (so', Done (xdr.Operation_zero, Some home_domain_error)))
  \/ (inflation_resolves so
      /\ (String.length (HomeDomain so) <= 32)%nat
      /\ Signer_ so <> Signer_zero
      /\ Weight (Signer_ so) = None
      /\ exists so', BuildXDR so = (so', Panicked))
  \/ (inflation_resolves so
      /\ (String.length (HomeDomain so) <= 32)%nat
      /\ exists w e, Weight (Signer_ so) = Some w
         /\ SignerKey_SetAddress (Address (Signer_ so)) = inl e
         /\ exists so', BuildXDR so =
              (so', Done (xdr.Operation_zero,
                          Some (errors.Wrap e "Failed to set signer"))))
  \/ (inflation_resolves so
      /\ (String.length (HomeDomain so) <= 32)%nat
      /\ signer_resolves so
      /\ exists so', BuildXDR so = (so', Done (wrap (final_op so), None))
                     /\ xdrOp so' = final_op so
                     /\ same_request so' so).
Proof.
  destruct so as [d infl sa ca mw lt mt ht hd sg op]; destruct op.
  unfold inflation_resolves, signer_resolves, same_request, home_domain_error.
  rewrite !BuildXDR_unfold. norm.
  destruct (String.eqb infl "") eqn:Ei; norm.
  2: destruct (AccountId_SetAddress infl) as [e|id] eqn:Ea; norm.
  2: { left. apply String.eqb_neq in Ei. eauto. }
  all: assert (Hinfl : forall x : errors.error + xdr.AccountId,
                   x = AccountId_SetAddress infl ->
                   infl = "" \/ exists id, x = inr id)
         by (intros x ->;
             first [ left; now apply String.eqb_eq | right; rewrite Ea; eauto ]).
  all: try rewrite <- Ea in *.
  all: specialize (Hinfl _ eq_refl).
  all: right.
  all: destruct (String.eqb hd "") eqn:Eh; norm;
    [ apply String.eqb_eq in Eh as Hhd;
      assert (El : (String.length hd <= 32)%nat) by (subst hd; cbn; lia)
    | destruct (32 <? String.length hd)%nat eqn:El; norm;
      [ left; apply Nat.ltb_lt in El;
        split; [ exact Hinfl | split; [ exact El | eexists; reflexivity ] ]
      | apply Nat.ltb_ge in El ] ].
  all: right.
  all: destruct (Signer_neq_zero sg) eqn:Es; norm.
  all: try (apply Signer_neq_zero_false in Es as Hs;
            right; right; split; [ exact Hinfl | split; [ exact El | ] ];
            split; [ now left | ];
            eexists; split; [ reflexivity | ]; split; [ | repeat split ];
            subst sg; reflexivity).
  all: apply Signer_neq_zero_true in Es as Hs.
  all: destruct sg as [addr [w|]]; cbn [Weight Address] in *;
    [ | left; split; [ exact Hinfl | split; [ exact El | ] ];
        split; [ exact Hs | split; [ reflexivity | eexists; reflexivity ] ] ].
  all: right.
  all: destruct (SignerKey_SetAddress addr) as [e|key] eqn:Ek; norm.
  all: try (left; split; [ exact Hinfl | split; [ exact El | ] ];
            exists w, e; split; [ reflexivity | split; [ reflexivity | ] ];
            eexists; reflexivity).
  all: right; split; [ exact Hinfl | split; [ exact El | ] ].
  all: split; [ right; exists w, key; split; reflexivity | ].
  all: eexists; split; [ reflexivity | ]; split; [ | repeat split ].
  all: cbn [Weight Address]; reflexivity.
Qed.

End BuilderFacts.

(** Runs [BuildXDR] on a builder given field by field, one goal for each way
    through its fallible steps. *)
Ltac build_leaves infl hd addr w :=
  rewrite (BuildXDR_unfold (Build_SetOptions _ _ _ _ _ _ _ _ _ _ _)); norm_all;
  destruct (String.eqb infl "") eqn:Ei; norm_all;
  [| destruct (AccountId_SetAddress infl) eqn:Ea; norm_all ];
  try (destruct (String.eqb hd "") eqn:Eh; norm_all;
       [| destruct (32 <? String.length hd)%nat eqn:El; norm_all ]);
  try (destruct (String.eqb addr "") eqn:Es, w as [w|]; norm_all);
  try (destruct (SignerKey_SetAddress addr) eqn:Ek; norm_all).


(** ** The flag merge *)

Lemma to_Uint32_small (v : Z) : is_uint32 v -> xdr.to_Uint32 v = v.
Proof. intros H. unfold xdr.to_Uint32. now apply Z.mod_small. Qed.

Lemma map_to_Uint32_small (l : list Z) :
  Forall is_uint32 l -> map xdr.to_Uint32 l = l.
Proof.
  induction 1 as [|v l Hv _ IH]; cbn; [reflexivity|].
  now rewrite IH, to_Uint32_small.
Qed.

Lemma fold_left_lor (g : Z -> Z) (l : list Z) (a : Z) :
  fold_left (fun flags flag => Z.lor flags (g flag)) l a
  = Z.lor a (bitwise_or (map g l)).
Proof.
  unfold bitwise_or. revert a. induction l as [|x l IH]; intros a; cbn.
  - now rewrite Z.lor_0_r.
  - now rewrite IH, Z.lor_assoc.
Qed.

Lemma flags_mask_bitwise_or (l : list AccountFlag) :
  flags_mask l = bitwise_or (map xdr.to_Uint32 l).
Proof. unfold flags_mask. now rewrite fold_left_lor, Z.lor_0_l. Qed.

Lemma testbit_bitwise_or (l : list Z) (i : Z) :
  Z.testbit (bitwise_or l) i = existsb (fun x => Z.testbit x i) l.
Proof.
  unfold bitwise_or. induction l as [|x l IH]; cbn.
  - apply Z.testbit_0_l.
  - now rewrite Z.lor_spec, IH.
Qed.

(** The OR of a sequence depends on the set of its elements only. *)
Lemma bitwise_or_same_elements (l l' : list Z) :
  (forall x, In x l <-> In x l') -> bitwise_or l = bitwise_or l'.
Proof.
  intros H. apply Z.bits_inj. intros i.
  rewrite !testbit_bitwise_or. apply eq_true_iff_eq.
  rewrite !existsb_exists. split; intros (x & Hx & Hb); exists x; split; auto;
    now apply H.
Qed.

Lemma flags_mask_same_elements (l l' : list AccountFlag) :
  (forall x, In x l <-> In x l') -> flags_mask l = flags_mask l'.
Proof.
  intros H. rewrite !flags_mask_bitwise_or. apply bitwise_or_same_elements.
  intros y. rewrite !in_map_iff.
  split; intros (x & Hy & Hx); exists x; split; auto; now apply H.
Qed.

Lemma merged_set_eq (so : SetOptions) :
  merged_set so = override (flags_slot (SetAuthorization so)) (xdr.SetFlags (xdrOp so)).
Proof. unfold merged_set. rewrite handleSetFlags_eq. reflexivity. Qed.

Lemma merged_clear_eq (so : SetOptions) :
  merged_clear so
  = override (flags_slot (ClearAuthorization so)) (xdr.ClearFlags (xdrOp so)).
Proof. unfold merged_clear. rewrite handleClearFlags_eq. reflexivity. Qed.

Lemma flags_slot_cons (l : list AccountFlag) :
  l <> [] -> flags_slot l = Some (flags_mask l).
Proof. destruct l; [congruence | reflexivity]. Qed.


Section BuildResults.

Context {codec : AddressCodec}.

(** A build that returns without an error returns the accumulator, wrapped
    with the kind of the operation, filled as [final_op] says. *)
Lemma BuildXDR_success (so so' : SetOptions) (op : xdr.Operation) :
  BuildXDR so = (so', Done (op, None)) ->
  op = wrap (final_op so)
  /\ inflation_resolves so
  /\ (String.length (HomeDomain so) <= 32)%nat
  /\ signer_resolves so.
Proof.
  intros H.
  destruct (BuildXDR_cases so)
    as [(_ & e & _ & E) | [(_ & _ & s & E) | [(_ & _ & _ & _ & s & E)
       | [(_ & _ & w & e & _ & _ & s & E) | (Hi & Hl & Hs & s & E & _)]]]];
    rewrite E in H; inversion H; subst; auto.
Qed.


Lemma inflation_conflict (so : SetOptions) (e : errors.error) :
  inflation_resolves so -> InflationDestination so <> "" ->
  AccountId_SetAddress (InflationDestination so) = inl e -> False.
Proof. intros [H | (id & H)] Hn He; congruence. Qed.

Lemma signer_conflict_nil (so : SetOptions) :
  signer_resolves so -> Signer_ so <> Signer_zero ->
  Weight (Signer_ so) = None -> False.
Proof. intros [H | (w & key & H & _)] Hn Hw; congruence. Qed.

Lemma signer_conflict_error (so : SetOptions) (w : xdr.Uint32) (e : errors.error) :
  signer_resolves so -> Weight (Signer_ so) = Some w ->
  SignerKey_SetAddress (Address (Signer_ so)) = inl e -> False.
Proof.
  intros [H | (w' & key & _ & H)] Hw He; [|congruence].
  rewrite H in Hw. discriminate.
Qed.

(** The five outcomes, each from the condition on the request that decides
    it. *)
Lemma BuildXDR_inflation_error (so : SetOptions) (e : errors.error) :
  InflationDestination so <> "" ->
  AccountId_SetAddress (InflationDestination so) = inl e ->
  BuildXDR so =
  (so, Done (xdr.Operation_zero,
             Some (errors.Wrap e "Failed to set inflation destination address"))).
Proof.
  intros Hn He.
  destruct (BuildXDR_cases so)
    as [(_ & e' & He' & E) | [(Hi & _) | [(Hi & _) | [(Hi & _) | (Hi & _)]]]];
    try (exfalso; now apply (inflation_conflict so e Hi)).
  rewrite E. congruence.
Qed.

Lemma BuildXDR_home_domain_error (so : SetOptions) :
  inflation_resolves so -> (32 < String.length (HomeDomain so))%nat ->
  snd (BuildXDR so) = Done (xdr.Operation_zero, Some home_domain_error).
Proof.
  intros Hi Hl.
  destruct (BuildXDR_cases so)
    as [(Hn & e & He & _) | [(_ & _ & s & E) | [(_ & Hl' & _)
       | [(_ & Hl' & _) | (_ & Hl' & _)]]]]; try lia.
  - exfalso. now apply (inflation_conflict so e Hi).
  - now rewrite E.
Qed.

Lemma BuildXDR_signer_panic (so : SetOptions) :
  inflation_resolves so -> (String.length (HomeDomain so) <= 32)%nat ->
  Signer_ so <> Signer_zero -> Weight (Signer_ so) = None ->
  snd (BuildXDR so) = Panicked.
Proof.
  intros Hi Hl Hn Hw.
  destruct (BuildXDR_cases so)
    as [(Hn' & e & He & _) | [(_ & Hl' & _) | [(_ & _ & _ & _ & s & E)
       | [(_ & _ & w & e & Hw' & _) | (_ & _ & Hs & _)]]]]; try lia.
  - exfalso. now apply (inflation_conflict so e Hi).
  - now rewrite E.
  - congruence.
  - exfalso. now apply (signer_conflict_nil so Hs).
Qed.

Lemma BuildXDR_signer_error (so : SetOptions) (w : xdr.Uint32) (e : errors.error) :
  inflation_resolves so -> (String.length (HomeDomain so) <= 32)%nat ->
  Weight (Signer_ so) = Some w ->
  SignerKey_SetAddress (Address (Signer_ so)) = inl e ->
  snd (BuildXDR so)
  = Done (xdr.Operation_zero, Some (errors.Wrap e "Failed to set signer")).
Proof.
  intros Hi Hl Hw He.
  destruct (BuildXDR_cases so)
    as [(Hn' & e' & He' & _) | [(_ & Hl' & _) | [(_ & _ & _ & Hw' & _)
       | [(_ & _ & w' & e' & _ & He' & s & E) | (_ & _ & Hs & _)]]]]; try lia.
  - exfalso. now apply (inflation_conflict so e' Hi).
  - congruence.
  - rewrite E. cbn. congruence.
  - exfalso. now apply (signer_conflict_error so w e Hs).
Qed.

Lemma BuildXDR_returns (so : SetOptions) :
  inflation_resolves so -> (String.length (HomeDomain so) <= 32)%nat ->
  signer_resolves so ->
  exists so', BuildXDR so = (so', Done (wrap (final_op so), None))
              /\ xdrOp so' = final_op so /\ same_request so' so.
Proof.
  intros Hi Hl Hs.
  destruct (BuildXDR_cases so)
    as [(Hn' & e' & He' & _) | [(_ & Hl' & _) | [(_ & _ & Hn & Hw & _)
       | [(_ & _ & w' & e' & Hw & He' & _) | (_ & _ & _ & E)]]]]; try lia; auto.
  - exfalso. now apply (inflation_conflict so e' Hi).
  - exfalso. now apply (signer_conflict_nil so Hs).
  - exfalso. now apply (signer_conflict_error so w' e' Hs).
Qed.

(** Whatever [BuildXDR] returns with an error, it returns the zero
    operation with it. *)
Lemma BuildXDR_error_zero (so so' : SetOptions) (op : xdr.Operation)
    (err : errors.error) :
  BuildXDR so = (so', Done (op, Some err)) -> op = xdr.Operation_zero.
Proof.
  intros H.
  destruct (BuildXDR_cases so)
    as [(_ & e & _ & E) | [(_ & _ & s & E) | [(_ & _ & _ & _ & s & E)
       | [(_ & _ & w & e & _ & _ & s & E) | (_ & _ & _ & s & E & _)]]]];
    rewrite E in H; inversion H; reflexivity.
Qed.

(** [BuildXDR] writes the accumulator and [destAccountID] only. *)
Lemma BuildXDR_same_request (so : SetOptions) :
  same_request (fst (BuildXDR so)) so.
Proof.
  destruct so as [d infl sa ca mw lt mt ht hd [addr w] op]; destruct op.
  unfold same_request.
  build_leaves infl hd addr w; repeat split.
Qed.

(** A second build finds the builder as the first one left it and leaves it
    so, with the same result. *)
Lemma BuildXDR_idempotent (so : SetOptions) :
  BuildXDR (fst (BuildXDR so)) = BuildXDR so.
Proof.
  destruct so as [d infl sa ca mw lt mt ht hd [addr w] op]; destruct op.
  build_leaves infl hd addr w;
    rewrite BuildXDR_unfold; norm_all;
    rewrite ?Ei, ?Ea; norm_all; rewrite ?Eh, ?El; norm_all;
    rewrite ?Es; norm_all; rewrite ?Ek; norm_all;
    rewrite ?override_idem; reflexivity.
Qed.

End BuildResults.

(** ** The properties of the builder *)

Section Claims.

Context {codec : AddressCodec}.

(** C1.  The mask that [handleSetFlags] (and likewise [handleClearFlags])
    stores for a non-empty sequence of flag values is the bitwise OR of the
    values, also in the record a successful [BuildXDR] returns.  It is the
    same for every sequence with the same elements, whatever their order and
    however often they are repeated: [1,2,4], [4,2,1] and [1,1,2,4,2,4] all
    give 7.  No value is checked against the three documented flags:
    [3,3,3] gives 3 and [8] gives 8. *)
Theorem C1_merged_mask_is_bitwise_or (l : list AccountFlag) :
  l <> [] -> Forall is_uint32 l ->
  (forall so, SetAuthorization so = l -> merged_set so = Some (bitwise_or l))
  /\ (forall so, ClearAuthorization so = l -> merged_clear so = Some (bitwise_or l))
  /\ (forall so so' op, BuildXDR so = (so', Done (op, None)) ->
        exists rec, record_of op = Some rec
          /\ (SetAuthorization so = l -> xdr.SetFlags rec = Some (bitwise_or l))
          /\ (ClearAuthorization so = l -> xdr.ClearFlags rec = Some (bitwise_or l)))
  /\ (forall so, (forall x, In x (SetAuthorization so) <-> In x l) ->
        merged_set so = Some (bitwise_or l))
  /\ (forall so, (forall x, In x (ClearAuthorization so) <-> In x l) ->
        merged_clear so = Some (bitwise_or l))
  /\ merged_set (flags_request [1; 2; 4] []) = Some 7
  /\ merged_set (flags_request [4; 2; 1] []) = Some 7
  /\ merged_set (flags_request [1; 1; 2; 4; 2; 4] []) = Some 7
  /\ merged_set (flags_request [3; 3; 3] []) = Some 3
  /\ merged_set (flags_request [8] []) = Some 8
  /\ merged_clear (flags_request [] [1; 2; 4]) = Some 7
  /\ merged_clear (flags_request [] [4; 2; 1]) = Some 7
  /\ merged_clear (flags_request [] [1; 1; 2; 4; 2; 4]) = Some 7
  /\ merged_clear (flags_request [] [3; 3; 3]) = Some 3
  /\ snd (BuildXDR (flags_request [1; 2; 4] []))
     = Done (wrap (set_SetFlags (Some 7) xdr.SetOptionsOp_zero), None).
Proof.
  intros Hne Hr.
  assert (Hmask : flags_mask l = bitwise_or l)
    by now rewrite flags_mask_bitwise_or, map_to_Uint32_small.
  assert (Hsame : forall l', (forall x, In x l' <-> In x l) ->
                             flags_slot l' = Some (bitwise_or l)).
  { intros l' H. rewrite flags_slot_cons.
    - now rewrite (flags_mask_same_elements l' l H), Hmask.
    - destruct l as [|x l0]; [congruence|]. intros ->.
      exact (proj2 (H x) (or_introl eq_refl)). }
  assert (Hslot : flags_slot l = Some (bitwise_or l))
    by (apply Hsame; intros; reflexivity).
  repeat split; try reflexivity.
  - intros so <-. now rewrite merged_set_eq, Hslot.
  - intros so <-. now rewrite merged_clear_eq, Hslot.
  - intros so so' op H. apply BuildXDR_success in H as (-> & _).
    eexists. split; [reflexivity|]. cbn.
    split; intros ->; now rewrite Hslot.
  - intros so H. now rewrite merged_set_eq, (Hsame _ H).
  - intros so H. now rewrite merged_clear_eq, (Hsame _ H).
Qed.





(** C6.  The first failing step, in the order inflation destination, home
    domain, signer, decides what [BuildXDR] returns: the zero operation and
    the error of that step wrapped with the message that names the field.  An
    inflation destination the codec refuses wins whatever the home domain and
    the signer are, so also over a home domain that is too long; no error
    ever comes with anything but the zero operation. *)
Theorem C6_first_failure_aborts (so : SetOptions) :
  (forall e, InflationDestination so <> "" ->
     AccountId_SetAddress (InflationDestination so) = inl e ->
     snd (BuildXDR so)
     = Done (xdr.Operation_zero,
             Some (errors.Wrap e "Failed to set inflation destination address")))
  /\ (inflation_resolves so -> (32 < String.length (HomeDomain so))%nat ->
        snd (BuildXDR so)
        = Done (xdr.Operation_zero,
                Some (errors.Wrap
                        (errors.New "HomeDomain must be 32 characters or less")
                        "Failed to set home domain")))
  /\ (forall w e, inflation_resolves so ->
        (String.length (HomeDomain so) <= 32)%nat ->
        Weight (Signer_ so) = Some w ->
        SignerKey_SetAddress (Address (Signer_ so)) = inl e ->
        snd (BuildXDR so)
        = Done (xdr.Operation_zero, Some (errors.Wrap e "Failed to set signer")))
  /\ (forall e, InflationDestination so <> "" ->
        AccountId_SetAddress (InflationDestination so) = inl e ->
        (32 < String.length (HomeDomain so))%nat ->
        snd (BuildXDR so)
        = Done (xdr.Operation_zero,
                Some (errors.Wrap e "Failed to set inflation destination address")))
  /\ (forall so' op err, BuildXDR so = (so', Done (op, Some err)) ->
        op = xdr.Operation_zero).
Proof.
  repeat apply conj.
  - intros e Hn He. now rewrite (BuildXDR_inflation_error so e Hn He).
  - apply BuildXDR_home_domain_error.
  - intros w e. apply BuildXDR_signer_error.
  - intros e Hn He _. now rewrite (BuildXDR_inflation_error so e Hn He).
  - intros so' op err. apply BuildXDR_error_zero.
Qed.

(** C7 (as amended).  Whenever [BuildXDR] fails because the home domain has
    more than 32 bytes, it returns one and the same error: the error with the
    text "HomeDomain must be 32 characters or less", which names the limit,
    wrapped with "Failed to set home domain".  The error is the same for
    every offending home domain, whatever its length. *)
Theorem C7_home_domain_error_is_fixed (so : SetOptions) :
  inflation_resolves so -> (32 < String.length (HomeDomain so))%nat ->
  snd (BuildXDR so) = Done (xdr.Operation_zero, Some home_domain_error)
  /\ errors.Cause home_domain_error
     = errors.New "HomeDomain must be 32 characters or less"
  /\ errors.message_of home_domain_error = "Failed to set home domain"
  /\ (forall so2, inflation_resolves so2 ->
        (32 < String.length (HomeDomain so2))%nat ->
        snd (BuildXDR so2) = snd (BuildXDR so)).
Proof.
  intros Hi Hl. rewrite (BuildXDR_home_domain_error so Hi Hl).
  repeat split. intros so2 Hi2 Hl2. now apply BuildXDR_home_domain_error.
Qed.

(** C8.  A second [BuildXDR] on a builder that has not been touched since the
    first returns exactly what the first returned, and leaves the builder as
    the first left it: it succeeds exactly when the first did, with the same
    record, and fails or panics exactly when the first did, with the same
    error.  The first build leaves the exported fields, the request, as they
    were. *)
Theorem C8_second_build_is_the_same (so : SetOptions) :
  BuildXDR (fst (BuildXDR so)) = BuildXDR so
  /\ same_request (fst (BuildXDR so)) so
  /\ (forall op, snd (BuildXDR so) = Done (op, None)
                 <-> snd (BuildXDR (fst (BuildXDR so))) = Done (op, None))
  /\ (forall op1 op2, snd (BuildXDR so) = Done (op1, None) ->
        snd (BuildXDR (fst (BuildXDR so))) = Done (op2, None) -> op1 = op2).
Proof.
  pose proof (BuildXDR_idempotent so) as E.
  split; [exact E|]. split; [apply BuildXDR_same_request|].
  rewrite E. split; [reflexivity|]. congruence.
Qed.

(** C9 (what the code does).  A signer pair with an address and a nil weight
    is not the default pair, and [handleSigner] dereferences its weight
    before anything else: it panics, and so does [BuildXDR] once the
    inflation destination and the home domain have passed. *)
Theorem C9_nil_signer_weight_panics (so : SetOptions) :
  inflation_resolves so -> (String.length (HomeDomain so) <= 32)%nat ->
  Address (Signer_ so) <> "" -> Weight (Signer_ so) = None ->
  snd (handleSigner so) = Panicked /\ snd (BuildXDR so) = Panicked.
Proof.
  intros Hi Hl Ha Hw.
  assert (Hn : Signer_ so <> Signer_zero) by (intros E; now rewrite E in Ha).
  split.
  - unfold handleSigner.
    rewrite (proj2 (Signer_neq_zero_true _) Hn), Hw. reflexivity.
  - now apply BuildXDR_signer_panic.
Qed.


End Claims.

(** ** The properties at the example requests *)

Lemma C1_witness :
  [1; 2; 4] <> [] /\ Forall is_uint32 [1; 2; 4]
  /\ merged_set (flags_request [1; 2; 4] []) = Some (bitwise_or [1; 2; 4]).
Proof.
  assert (Hne : [1; 2; 4] <> @nil Z) by discriminate.
  assert (Hr : Forall is_uint32 [1; 2; 4]).
  { repeat (apply Forall_cons; [ unfold is_uint32; split; [lia | reflexivity] | ]).
    apply Forall_nil. }
  split; [exact Hne|]. split; [exact Hr|].
  destruct (@C1_merged_mask_is_bitwise_or example_codec [1; 2; 4] Hne Hr)
    as (Hset & _).
  apply Hset. reflexivity.
Defined.






Lemma C6_witness :
  InflationDestination ex_bad_inflation_domain40 <> ""
  /\ (32 < String.length (HomeDomain ex_bad_inflation_domain40))%nat
  /\ snd (@BuildXDR example_codec ex_bad_inflation_domain40)
     = Done (xdr.Operation_zero,
             Some (errors.Wrap invalid_address
                     "Failed to set inflation destination address")).
Proof.
  assert (Hn : InflationDestination ex_bad_inflation_domain40 <> "")
    by discriminate.
  assert (Hl : (32 < String.length (HomeDomain ex_bad_inflation_domain40))%nat)
    by (cbn; lia).
  split; [exact Hn|]. split; [exact Hl|].
  destruct (@C6_first_failure_aborts example_codec ex_bad_inflation_domain40)
    as (_ & _ & _ & Hboth & _).
  apply (Hboth invalid_address Hn eq_refl Hl).
Defined.

Lemma C7_witness :
  @inflation_resolves example_codec ex_domain40
  /\ (32 < String.length (HomeDomain ex_domain40))%nat
  /\ snd (@BuildXDR example_codec ex_domain40)
     = Done (xdr.Operation_zero, Some home_domain_error).
Proof.
  assert (Hi : @inflation_resolves example_codec ex_domain40)
    by (left; reflexivity).
  assert (Hl : (32 < String.length (HomeDomain ex_domain40))%nat) by (cbn; lia).
  split; [exact Hi|]. split; [exact Hl|].
  destruct (@C7_home_domain_error_is_fixed example_codec ex_domain40 Hi Hl)
    as (Herr & _).
  exact Herr.
Defined.

(** C7, as it was stated, fails: home domains of 33 and of 40 bytes are
    refused with the same error, so no length can be read off the error. *)
Lemma C7_counterexample :
  String.length (HomeDomain ex_domain33) = 33%nat
  /\ String.length (HomeDomain ex_domain40) = 40%nat
  /\ snd (@BuildXDR example_codec ex_domain33)
     = Done (xdr.Operation_zero, Some home_domain_error)
  /\ snd (@BuildXDR example_codec ex_domain40)
     = Done (xdr.Operation_zero, Some home_domain_error)
  /\ ~ (exists measured : errors.error -> nat,
          forall so so' op err,
            (32 < String.length (HomeDomain so))%nat ->
            @BuildXDR example_codec so = (so', Done (op, Some err)) ->
            errors.message_of err = "Failed to set home domain" ->
            measured err = String.length (HomeDomain so)).
Proof.
  repeat split.
  intros (measured & H).
  assert (H33 : measured home_domain_error = 33%nat).
  { apply (H ex_domain33 (fst (@BuildXDR example_codec ex_domain33))
             xdr.Operation_zero home_domain_error);
      [cbn; lia | reflexivity | reflexivity]. }
  assert (H40 : measured home_domain_error = 40%nat).
  { apply (H ex_domain40 (fst (@BuildXDR example_codec ex_domain40))
             xdr.Operation_zero home_domain_error);
      [cbn; lia | reflexivity | reflexivity]. }
  congruence.
Qed.

Lemma C9_witness :
  @inflation_resolves example_codec ex_signer_nil_weight
  /\ Address (Signer_ ex_signer_nil_weight) <> ""
  /\ Weight (Signer_ ex_signer_nil_weight) = None
  /\ snd (@BuildXDR example_codec ex_signer_nil_weight) = Panicked.
Proof.
  assert (Hi : @inflation_resolves example_codec ex_signer_nil_weight)
    by (left; reflexivity).
  assert (Ha : Address (Signer_ ex_signer_nil_weight) <> "") by discriminate.
  split; [exact Hi|]. split; [exact Ha|]. split; [reflexivity|].
  assert (Hl : (String.length (HomeDomain ex_signer_nil_weight) <= 32)%nat)
    by (cbn; lia).
  destruct (@C9_nil_signer_weight_panics example_codec ex_signer_nil_weight
              Hi Hl Ha eq_refl) as (_ & Hbuild).
  exact Hbuild.
Defined.



(** ** Further properties of the flag handlers *)

Lemma to_Uint32_range (v : Z) : is_uint32 (xdr.to_Uint32 v).
Proof. unfold is_uint32, xdr.to_Uint32. apply Z.mod_pos_bound. reflexivity. Qed.

Lemma lor_is_uint32 (a b : Z) : is_uint32 a -> is_uint32 b -> is_uint32 (Z.lor a b).
Proof.
  unfold is_uint32. intros [Ha0 Ha] [Hb0 Hb].
  assert (H0 : 0 <= Z.lor a b) by now apply Z.lor_nonneg.
  split; [exact H0|].
  destruct (Z.eq_dec (Z.lor a b) 0) as [E|E]; [rewrite E; reflexivity|].
  apply Z.log2_lt_pow2; [lia|].
  rewrite Z.log2_lor by assumption.
  assert (La : Z.log2 a < 32).
  { destruct (Z.eq_dec a 0) as [->|]; [reflexivity|]. apply Z.log2_lt_pow2; lia. }
  assert (Lb : Z.log2 b < 32).
  { destruct (Z.eq_dec b 0) as [->|]; [reflexivity|]. apply Z.log2_lt_pow2; lia. }
  lia.
Qed.

Lemma bitwise_or_is_uint32 (l : list Z) :
  Forall is_uint32 l -> is_uint32 (bitwise_or l).
Proof.
  unfold bitwise_or. induction 1 as [|x l Hx _ IH]; cbn.
  - unfold is_uint32. split; [lia | reflexivity].
  - now apply lor_is_uint32.
Qed.

Lemma flags_mask_is_uint32 (l : list AccountFlag) : is_uint32 (flags_mask l).
Proof.
  rewrite flags_mask_bitwise_or. apply bitwise_or_is_uint32.
  induction l; cbn; constructor; auto using to_Uint32_range.
Qed.

Lemma flags_mask_testbit (l : list AccountFlag) (i : Z) :
  0 <= i < 32 ->
  Z.testbit (flags_mask l) i = existsb (fun flag => Z.testbit flag i) l.
Proof.
  intros Hi. rewrite flags_mask_bitwise_or, testbit_bitwise_or.
  induction l as [|x l IH]; cbn; [reflexivity|].
  rewrite IH. f_equal. unfold xdr.to_Uint32.
  apply Z.mod_pow2_bits_low. lia.
Qed.

(** X1.  Whatever the values of the sequence, the mask [handleSetFlags]
    (resp. [handleClearFlags]) stores for a non-empty sequence is a value of
    32 unsigned bits: the merge never overflows. *)
Theorem X1_merged_mask_is_uint32 (so : SetOptions) :
  (SetAuthorization so <> [] ->
     exists m, merged_set so = Some m /\ is_uint32 m)
  /\ (ClearAuthorization so <> [] ->
        exists m, merged_clear so = Some m /\ is_uint32 m).
Proof.
  split; intros Hne; eexists.
  - rewrite merged_set_eq, (flags_slot_cons _ Hne).
    split; [reflexivity | apply flags_mask_is_uint32].
  - rewrite merged_clear_eq, (flags_slot_cons _ Hne).
    split; [reflexivity | apply flags_mask_is_uint32].
Qed.

(** X2.  Bit by bit: each of the 32 bits of the stored mask is set exactly
    when some value of the sequence has it set.  No bit is lost and none is
    invented, also for values outside the documented flags. *)
Theorem X2_mask_bit_set_iff_some_flag_has_it (so : SetOptions) (m i : Z) :
  0 <= i < 32 ->
  (SetAuthorization so <> [] -> merged_set so = Some m ->
     (Z.testbit m i = true
      <-> exists flag, In flag (SetAuthorization so) /\ Z.testbit flag i = true))
  /\ (ClearAuthorization so <> [] -> merged_clear so = Some m ->
        (Z.testbit m i = true
         <-> exists flag, In flag (ClearAuthorization so)
                          /\ Z.testbit flag i = true)).
Proof.
  intros Hi. split; intros Hne H.
  - rewrite merged_set_eq, (flags_slot_cons _ Hne) in H. injection H as <-.
    now rewrite (flags_mask_testbit _ i Hi), existsb_exists.
  - rewrite merged_clear_eq, (flags_slot_cons _ Hne) in H. injection H as <-.
    now rewrite (flags_mask_testbit _ i Hi), existsb_exists.
Qed.

Lemma flags_mask_repeat (flag : AccountFlag) (l : list AccountFlag) :
  l <> [] -> Forall (eq flag) l -> flags_mask l = xdr.to_Uint32 flag.
Proof.
  intros Hne H. rewrite flags_mask_bitwise_or. unfold bitwise_or.
  induction H as [|x l <- Hl IH]; [congruence|]. cbn.
  destruct l as [|y l'].
  - cbn. apply Z.lor_0_r.
  - rewrite IH by discriminate. apply Z.lor_diag.
Qed.

Lemma flags_mask_without_zeros (l : list AccountFlag) :
  flags_mask (without_zeros l) = flags_mask l.
Proof.
  rewrite !flags_mask_bitwise_or. unfold bitwise_or, without_zeros.
  induction l as [|x l IH]; cbn; [reflexivity|].
  destruct (xdr.to_Uint32 x =? 0) eqn:E; cbn.
  - apply Z.eqb_eq in E. now rewrite E, Z.lor_0_l.
  - now rewrite IH.
Qed.

(** X3.  What the six tests of [handleSetFlags] check, in general: a flag
    repeated any number of times gives that flag; zero values add nothing to
    the mask, though they count for the slot being present.  The six tests
    are instances and pass. *)
Theorem X3_repeated_and_zero_flags (so : SetOptions) :
  (forall flag, SetAuthorization so <> [] ->
     Forall (eq flag) (SetAuthorization so) -> is_uint32 flag ->
     merged_set so = Some flag)
  /\ (SetAuthorization so <> [] ->
        merged_set so = Some (flags_mask (without_zeros (SetAuthorization so))))
  /\ merged_set (flags_request [1; 2; 4] []) = Some 7
  /\ merged_set (flags_request [1; 1; 1] []) = Some 1
  /\ merged_set (flags_request [1; 2; 4; 2; 4; 1] []) = Some 7
  /\ merged_set (flags_request [1; 2] []) = Some 3
  /\ merged_set (flags_request [3; 3; 3] []) = Some 3
  /\ merged_set (flags_request [0; 2; 0] []) = Some 2.
Proof.
  repeat apply conj; try reflexivity.
  - intros flag Hne H Hr.
    rewrite merged_set_eq, (flags_slot_cons _ Hne), (flags_mask_repeat flag _ Hne H).
    now rewrite to_Uint32_small.
  - intros Hne.
    now rewrite merged_set_eq, (flags_slot_cons _ Hne), flags_mask_without_zeros.
Qed.

(** X4.  [handleSetFlags] writes the set-flags slot and nothing else,
    [handleClearFlags] the clear-flags slot and nothing else, and neither
    reads what the other writes: run in either order (the second snapshot
    runs set before clear, the last one clear before set) they leave the
    same builder. *)
Theorem X4_flag_handlers_commute (so : SetOptions) :
  fst (handleClearFlags (fst (handleSetFlags so)))
  = fst (handleSetFlags (fst (handleClearFlags so)))
  /\ fst (handleSetFlags so) = set_xdrOp (set_SetFlags (merged_set so)) so
  /\ fst (handleClearFlags so) = set_xdrOp (set_ClearFlags (merged_clear so)) so
  /\ merged_set (fst (handleClearFlags so)) = merged_set so
  /\ merged_clear (fst (handleSetFlags so)) = merged_clear so.
Proof.
  rewrite !merged_set_eq, !merged_clear_eq, !handleSetFlags_eq, !handleClearFlags_eq.
  destruct so as [d infl sa ca mw lt mt ht hd sg op]; destruct op.
  repeat split.
Qed.

(** ** The snapshots against the last variant *)

Section Snapshots.

Context {codec : AddressCodec}.

(** X5.  On a request that uses only what the second snapshot knows
    (inflation destination and flags), the last variant of [BuildXDR] and
    the second snapshot return the same result and leave the same builder,
    although they run the two flag handlers in opposite orders. *)
Theorem X5_with_flags_agrees (so : SetOptions) :
  flags_only so -> with_flags.BuildXDR so = BuildXDR so.
Proof.
  destruct so as [d infl sa ca mw lt mt ht hd sg op]; destruct op.
  unfold flags_only. cbn. intros (-> & -> & -> & -> & -> & ->).
  rewrite BuildXDR_unfold. unfold with_flags.BuildXDR. rewrite bind_eq.
  norm_all. unfold Signer_zero. cbn [String.eqb].
  destruct (String.eqb infl "") eqn:Ei; norm_all;
    [| destruct (AccountId_SetAddress infl) eqn:Ea; norm_all; [reflexivity|] ];
    rewrite (bind_done _ _ _ _ _ (handleSetFlags_eq _));
    rewrite (bind_done _ _ _ _ _ (handleClearFlags_eq _));
    reflexivity.
Qed.

(** X6.  On a request that sets nothing but the inflation destination, the
    last variant and the first snapshot, which handles the destination in
    line, return the same result and leave the same builder. *)
Theorem X6_inflation_only_agrees (so : SetOptions) :
  flags_only so -> SetAuthorization so = [] -> ClearAuthorization so = [] ->
  inflation_only.BuildXDR so = BuildXDR so.
Proof.
  destruct so as [d infl sa ca mw lt mt ht hd sg op]; destruct op.
  unfold flags_only. cbn. intros (-> & -> & -> & -> & -> & ->) -> ->.
  rewrite BuildXDR_unfold. unfold inflation_only.BuildXDR.
  norm_all. unfold Signer_zero. cbn [String.eqb].
  destruct (String.eqb infl "") eqn:Ei; norm_all;
    [| destruct (AccountId_SetAddress infl) eqn:Ea; norm_all ];
    reflexivity.
Qed.

(** X7.  The third snapshot, with its call of [handleClearFlags] commented
    out, never touches the clear-flags slot: the slot of the builder is after
    the build what it was before, and the record of a request never clears a
    flag, whatever [ClearAuthorization] holds.  It is the second snapshot
    exactly on the requests that clear nothing. *)
Theorem X7_set_flags_only_ignores_clear (so : SetOptions) :
  xdr.ClearFlags (xdrOp (fst (set_flags_only.BuildXDR so)))
  = xdr.ClearFlags (xdrOp so)
  /\ (fresh so -> forall so' op,
        set_flags_only.BuildXDR so = (so', Done (op, None)) ->
        exists rec, record_of op = Some rec /\ xdr.ClearFlags rec = None)
  /\ (ClearAuthorization so = [] ->
        set_flags_only.BuildXDR so = with_flags.BuildXDR so).
Proof.
  destruct so as [d infl sa ca mw lt mt ht hd sg op]; destruct op.
  unfold fresh, set_flags_only.BuildXDR, with_flags.BuildXDR, bind, get, ret.
  norm_all.
  destruct (String.eqb infl "") eqn:Ei; norm_all;
    [| destruct (AccountId_SetAddress infl) eqn:Ea; norm_all ];
    rewrite ?handleSetFlags_eq; norm_all.
  all: repeat apply conj; try reflexivity.
  all: try (intros E so' op H; inversion E; subst; cbn in H; inversion H; subst;
            eexists; split; reflexivity).
  all: intros ->; rewrite ?handleSetFlags_eq; norm_all;
    rewrite ?handleClearFlags_eq; reflexivity.
Qed.

End Snapshots.

(** ** When a build returns, fails or panics *)

Section Outcomes.

Context {codec : AddressCodec}.

(** X8.  [BuildXDR] returns a record exactly when the inflation destination
    is empty or resolves, the home domain has at most 32 bytes, and the
    signer pair is the default one or has a weight and an address that
    resolves.  Flags, weights and thresholds never make a build fail. *)
Theorem X8_returns_a_record_iff (so : SetOptions) :
  (exists so' op, BuildXDR so = (so', Done (op, None)))
  <-> inflation_resolves so
      /\ (String.length (HomeDomain so) <= 32)%nat
      /\ signer_resolves so.
Proof.
  split.
  - intros (so' & op & H). now apply BuildXDR_success in H as (_ & H).
  - intros (Hi & Hl & Hs).
    destruct (BuildXDR_returns so Hi Hl Hs) as (so' & E & _). eauto.
Qed.

(** X9.  [BuildXDR] panics in one situation only: the inflation destination
    and the home domain have passed, and the signer pair is not the default
    one but has a nil weight (so: an address without a weight). *)
Theorem X9_panics_iff (so : SetOptions) :
  snd (BuildXDR so) = Panicked
  <-> inflation_resolves so
      /\ (String.length (HomeDomain so) <= 32)%nat
      /\ Signer_ so <> Signer_zero
      /\ Weight (Signer_ so) = None.
Proof.
  split.
  - intros H.
    destruct (BuildXDR_cases so)
      as [(_ & e & _ & E) | [(_ & _ & s & E) | [(Hi & Hl & Hn & Hw & _)
         | [(_ & _ & w & e & _ & _ & s & E) | (_ & _ & _ & s & E & _)]]]];
      try (rewrite E in H; discriminate H).
    auto.
  - intros (Hi & Hl & Hn & Hw). now apply BuildXDR_signer_panic.
Qed.

(** X10.  An error [BuildXDR] returns tells which field was refused: it is
    the codec's error for the inflation destination wrapped with "Failed to
    set inflation destination address", or the home-domain error for a home
    domain of more than 32 bytes, or the codec's error for the signer's
    address wrapped with "Failed to set signer"; and in each case the fields
    before it in the order had passed. *)
Theorem X10_error_names_the_refused_field
    (so so' : SetOptions) (op : xdr.Operation) (err : errors.error) :
  BuildXDR so = (so', Done (op, Some err)) ->
  (exists e, err = errors.Wrap e "Failed to set inflation destination address"
             /\ InflationDestination so <> ""
             /\ AccountId_SetAddress (InflationDestination so) = inl e)
  \/ (err = home_domain_error
      /\ inflation_resolves so
      /\ (32 < String.length (HomeDomain so))%nat)
  \/ (exists w e, err = errors.Wrap e "Failed to set signer"
                  /\ inflation_resolves so
                  /\ (String.length (HomeDomain so) <= 32)%nat
                  /\ Weight (Signer_ so) = Some w
                  /\ SignerKey_SetAddress (Address (Signer_ so)) = inl e).
Proof.
  intros H.
  destruct (BuildXDR_cases so)
    as [(Hn & e & He & E) | [(Hi & Hl & s & E) | [(_ & _ & _ & _ & s & E)
       | [(Hi & Hl & w & e & Hw & He & s & E) | (_ & _ & _ & s & E & _)]]]];
    rewrite E in H; inversion H; subst.
  - left. eauto.
  - right. left. auto.
  - right. right. exists w, e. auto.
Qed.

End Outcomes.

(** ** The accumulator across builds *)

Lemma override_kept {A : Type} (n o : option A) : o <> None -> override n o <> None.
Proof. destruct n; [discriminate | trivial]. Qed.

Lemma override_covered {A : Type} (n o : option A) :
  (o <> None -> n <> None) -> override n o = override n None.
Proof.
  destruct n as [v|]; [reflexivity|]. destruct o as [v|]; [|reflexivity].
  intros H. exfalso. apply H; [discriminate | reflexivity].
Qed.

Lemma eqb_empty_false_length (s : string) :
  String.eqb s "" = false -> (1 <= String.length s)%nat.
Proof. destruct s; cbn; [discriminate | lia]. Qed.

Section Accumulator.

Context {codec : AddressCodec}.

(** X11.  No build ever takes a slot out of the accumulator: a slot present
    before [BuildXDR] is present after it, whether the build returns a
    record, fails or panics, and whatever the request says.  (For the
    inflation destination the source says so: once set, there is no way to
    unset.) *)
Theorem X11_slots_are_never_unset (so : SetOptions) :
  slots_kept (xdrOp so) (xdrOp (fst (BuildXDR so))).
Proof.
  destruct so as [d infl sa ca mw lt mt ht hd [addr w] op]; destruct op.
  unfold slots_kept.
  build_leaves infl hd addr w;
    repeat split; intros Hp; try exact Hp; try discriminate;
    apply override_kept; exact Hp.
Qed.

(** X12.  A builder that is used again behaves like a new one as long as no
    field has been emptied in between: when every slot of the accumulator
    belongs to a field that is set, [BuildXDR] has the outcome it has on the
    same request with the accumulator at zero. *)
Theorem X12_covered_builder_is_as_new (so : SetOptions) :
  covered so -> snd (BuildXDR so) = snd (BuildXDR (reset so)).
Proof.
  intros (Ci & Cc & Cs & Cm & Cl & Cd & Ch & Co & Cg).
  destruct (BuildXDR_cases so)
    as [(Hn & e & He & E) | [(Hi & Hl & s & E) | [(Hi & Hl & Hn & Hw & s & E)
       | [(Hi & Hl & w & e & Hw & He & s & E) | (Hi & Hl & Hs & s & E & _)]]]];
    rewrite E; cbn [snd]; symmetry.
  - now rewrite (BuildXDR_inflation_error (reset so) e Hn He).
  - now apply BuildXDR_home_domain_error.
  - now apply BuildXDR_signer_panic.
  - now apply (BuildXDR_signer_error (reset so) w e).
  - destruct (BuildXDR_returns (reset so) Hi Hl Hs) as (s' & E' & _).
    rewrite E'. cbn [snd]. do 3 f_equal.
    unfold final_op. cbn. f_equal; symmetry; apply override_covered; auto.
    + intros Hp. specialize (Ci Hp). unfold inflation_slot, reset. cbn.
      destruct Hi as [Hi | (id & Hi)]; [contradiction|].
      apply String.eqb_neq in Ci. rewrite Ci, Hi. discriminate.
    + intros Hp. specialize (Cc Hp).
      destruct (ClearAuthorization so); [contradiction | discriminate].
    + intros Hp. specialize (Cs Hp).
      destruct (SetAuthorization so); [contradiction | discriminate].
    + intros Hp. specialize (Co Hp). unfold home_slot, reset. cbn.
      apply String.eqb_neq in Co. rewrite Co. discriminate.
    + intros Hp. specialize (Cg Hp). unfold signer_slot, reset. cbn.
      destruct Hs as [Hs | (w & key & Hw & Hk)]; [contradiction|].
      apply Signer_neq_zero_true in Cg. rewrite Cg, Hw, Hk. discriminate.
Qed.

(** X13.  A field that is empty in the request leaves its slot as the
    accumulator has it: in the record a build returns, the slot of an empty
    field is the slot of the accumulator before the build.  So what an
    earlier build of the same builder stored for a field that has been
    emptied since is returned again. *)
Theorem X13_empty_field_keeps_old_slot
    (so so' : SetOptions) (op : xdr.Operation) :
  BuildXDR so = (so', Done (op, None)) ->
  exists rec, record_of op = Some rec
    /\ (InflationDestination so = "" ->
          xdr.InflationDest rec = xdr.InflationDest (xdrOp so))
    /\ (ClearAuthorization so = [] ->
          xdr.ClearFlags rec = xdr.ClearFlags (xdrOp so))
    /\ (SetAuthorization so = [] -> xdr.SetFlags rec = xdr.SetFlags (xdrOp so))
    /\ (MasterWeight so = None ->
          xdr.MasterWeight rec = xdr.MasterWeight (xdrOp so))
    /\ (LowThreshold so = None ->
          xdr.LowThreshold rec = xdr.LowThreshold (xdrOp so))
    /\ (MediumThreshold so = None ->
          xdr.MedThreshold rec = xdr.MedThreshold (xdrOp so))
    /\ (HighThreshold so = None ->
          xdr.HighThreshold rec = xdr.HighThreshold (xdrOp so))
    /\ (HomeDomain so = "" -> xdr.HomeDomain rec = xdr.HomeDomain (xdrOp so))
    /\ (Signer_ so = Signer_zero -> xdr.Signer_ rec = xdr.Signer_ (xdrOp so)).
Proof.
  intros H. apply BuildXDR_success in H as (-> & _).
  eexists. split; [reflexivity|]. cbn.
  unfold inflation_slot, home_slot, signer_slot.
  repeat split; intros E; rewrite E; reflexivity.
Qed.

(** X14.  A failed build is not without effect on the builder.  When the
    inflation destination is refused the builder is left as it was.  When
    the home domain is refused, the flags and the weights are in the
    accumulator already (only the home domain and the signer are not), while
    the request itself is as it was. *)
Theorem X14_builder_after_a_failed_build (so : SetOptions) :
  (forall e, InflationDestination so <> "" ->
     AccountId_SetAddress (InflationDestination so) = inl e ->
     fst (BuildXDR so) = so)
  /\ (inflation_resolves so -> (32 < String.length (HomeDomain so))%nat ->
        xdr.ClearFlags (xdrOp (fst (BuildXDR so))) = merged_clear so
        /\ xdr.SetFlags (xdrOp (fst (BuildXDR so))) = merged_set so
        /\ xdr.MasterWeight (xdrOp (fst (BuildXDR so)))
           = override (MasterWeight so) (xdr.MasterWeight (xdrOp so))
        /\ xdr.LowThreshold (xdrOp (fst (BuildXDR so)))
           = override (LowThreshold so) (xdr.LowThreshold (xdrOp so))
        /\ xdr.MedThreshold (xdrOp (fst (BuildXDR so)))
           = override (MediumThreshold so) (xdr.MedThreshold (xdrOp so))
        /\ xdr.HighThreshold (xdrOp (fst (BuildXDR so)))
           = override (HighThreshold so) (xdr.HighThreshold (xdrOp so))
        /\ xdr.HomeDomain (xdrOp (fst (BuildXDR so))) = xdr.HomeDomain (xdrOp so)
        /\ xdr.Signer_ (xdrOp (fst (BuildXDR so))) = xdr.Signer_ (xdrOp so)
        /\ same_request (fst (BuildXDR so)) so).
Proof.
  split.
  - intros e Hn He. now rewrite (BuildXDR_inflation_error so e Hn He).
  - rewrite merged_set_eq, merged_clear_eq.
    destruct so as [d infl sa ca mw lt mt ht hd [addr w] op]; destruct op.
    unfold inflation_resolves, same_request. cbn.
    intros Hi Hl.
    assert (Eh : String.eqb hd "" = false).
    { apply String.eqb_neq. intros ->. cbn in Hl. lia. }
    assert (El : (32 <? String.length hd)%nat = true) by now apply Nat.ltb_lt.
    rewrite BuildXDR_unfold. norm_all.
    destruct (String.eqb infl "") eqn:Ei; norm_all.
    2: destruct (AccountId_SetAddress infl) as [e|id] eqn:Ea; norm_all.
    2: { exfalso. apply String.eqb_neq in Ei.
         destruct Hi as [Hi | (id & Hi)]; congruence. }
    all: rewrite Eh, El; norm_all; repeat split.
Qed.

(** X15.  [BuildXDR] never stores a home domain of more than 32 bytes: a
    home domain found in the accumulator after a build was there before, or
    it is the request's and has between 1 and 32 bytes. *)
Theorem X15_stored_home_domain_is_bounded (so : SetOptions) (d : xdr.String32) :
  xdr.HomeDomain (xdrOp (fst (BuildXDR so))) = Some d ->
  xdr.HomeDomain (xdrOp so) = Some d
  \/ (d = HomeDomain so /\ (1 <= String.length d <= 32)%nat).
Proof.
  destruct so as [x infl sa ca mw lt mt ht hd [addr w] op]; destruct op.
  build_leaves infl hd addr w; intros H; auto;
    right; injection H as <-;
    apply Nat.ltb_ge in El; apply eqb_empty_false_length in Eh; auto.
Qed.

(** X16.  A signer pair with a weight and an address the codec resolves is
    stored as the resolved key paired with that very weight, also when the
    weight is 0 (the removal of the signer), whatever the accumulator held;
    the build returns when the fields before the signer have passed. *)
Theorem X16_signer_is_paired_with_its_weight
    (so : SetOptions) (w : xdr.Uint32) (key : xdr.SignerKey) :
  inflation_resolves so -> (String.length (HomeDomain so) <= 32)%nat ->
  Weight (Signer_ so) = Some w ->
  SignerKey_SetAddress (Address (Signer_ so)) = inr key ->
  exists so' rec, BuildXDR so = (so', Done (wrap rec, None))
    /\ xdr.Signer_ rec = Some {| xdr.Key := key; xdr.Weight := w |}.
Proof.
  intros Hi Hl Hw Hk.
  assert (Hs : signer_resolves so) by (right; eauto).
  destruct (BuildXDR_returns so Hi Hl Hs) as (so' & E & _).
  exists so', (final_op so). split; [exact E|].
  cbn. unfold signer_slot, Signer_neq_zero. rewrite Hw, Hk, orb_true_r.
  reflexivity.
Qed.

(** X17.  The inflation slot is the address of the builder's own
    [destAccountID].  The model keeps the value read through it, and that
    value is always the one of [destAccountID]: it is so for a new builder
    and every build keeps it so, whatever its outcome. *)
Theorem X17_inflation_slot_is_destAccountID (so : SetOptions) :
  (fresh so -> inflation_aliased so)
  /\ (inflation_aliased so -> inflation_aliased (fst (BuildXDR so))).
Proof.
  split.
  - intros H. left. now rewrite H.
  - destruct so as [d infl sa ca mw lt mt ht hd [addr w] op]; destruct op.
    unfold inflation_aliased.
    build_leaves infl hd addr w; intros H; auto.
Qed.

End Accumulator.

(** ** The further properties at the example requests *)

Lemma X1_witness :
  SetAuthorization ex_set_and_clear <> []
  /\ exists m, merged_set ex_set_and_clear = Some m /\ is_uint32 m.
Proof.
  assert (Hne : SetAuthorization ex_set_and_clear <> []) by discriminate.
  split; [exact Hne|].
  destruct (X1_merged_mask_is_uint32 ex_set_and_clear) as (Hset & _).
  exact (Hset Hne).
Defined.

Lemma X2_witness :
  0 <= 1 < 32
  /\ (Z.testbit 7 1 = true
      <-> exists flag, In flag (SetAuthorization ex_set_and_clear)
                       /\ Z.testbit flag 1 = true).
Proof.
  assert (Hi : 0 <= 1 < 32) by lia.
  split; [exact Hi|].
  destruct (X2_mask_bit_set_iff_some_flag_has_it ex_set_and_clear 7 1 Hi)
    as (Hset & _).
  apply Hset; [discriminate | reflexivity].
Defined.

Lemma X3_witness :
  SetAuthorization (flags_request [4; 4] []) <> []
  /\ Forall (eq 4) (SetAuthorization (flags_request [4; 4] []))
  /\ merged_set (flags_request [4; 4] []) = Some 4.
Proof.
  assert (Hne : SetAuthorization (flags_request [4; 4] []) <> []) by discriminate.
  assert (Hall : Forall (eq 4) (SetAuthorization (flags_request [4; 4] [])))
    by (repeat constructor).
  split; [exact Hne|]. split; [exact Hall|].
  destruct (X3_repeated_and_zero_flags (flags_request [4; 4] [])) as (Hrep & _).
  apply (Hrep 4 Hne Hall). unfold is_uint32. split; [lia | reflexivity].
Defined.

Lemma X5_witness :
  flags_only ex_set_and_clear
  /\ @with_flags.BuildXDR example_codec ex_set_and_clear
     = @BuildXDR example_codec ex_set_and_clear.
Proof.
  assert (H : flags_only ex_set_and_clear) by (repeat split).
  split; [exact H|].
  exact (@X5_with_flags_agrees example_codec ex_set_and_clear H).
Defined.

Lemma X6_witness :
  flags_only ex_inflation
  /\ @inflation_only.BuildXDR example_codec ex_inflation
     = @BuildXDR example_codec ex_inflation.
Proof.
  assert (H : flags_only ex_inflation) by (repeat split).
  split; [exact H|].
  exact (@X6_inflation_only_agrees example_codec ex_inflation H eq_refl eq_refl).
Defined.

Lemma X7_witness :
  fresh ex_set_and_clear
  /\ ClearAuthorization ex_set_and_clear = [2]
  /\ exists rec,
       record_of (wrap (set_SetFlags (Some 7) xdr.SetOptionsOp_zero)) = Some rec
       /\ xdr.ClearFlags rec = None.
Proof.
  split; [reflexivity|]. split; [reflexivity|].
  destruct (@X7_set_flags_only_ignores_clear example_codec ex_set_and_clear)
    as (_ & Hrec & _).
  exact (Hrec eq_refl
              (fst (@set_flags_only.BuildXDR example_codec ex_set_and_clear))
              (wrap (set_SetFlags (Some 7) xdr.SetOptionsOp_zero)) eq_refl).
Defined.

Lemma X10_witness :
  exists e,
    errors.Wrap invalid_address "Failed to set inflation destination address"
    = errors.Wrap e "Failed to set inflation destination address"
    /\ InflationDestination ex_bad_inflation_domain40 <> "".
Proof.
  destruct (@X10_error_names_the_refused_field example_codec
              ex_bad_inflation_domain40
              (fst (@BuildXDR example_codec ex_bad_inflation_domain40))
              xdr.Operation_zero
              (errors.Wrap invalid_address
                 "Failed to set inflation destination address")
              eq_refl)
    as [(e & He & Hn & _) | [(He & _) | (w & e & He & _)]];
    [ | unfold home_domain_error in He; discriminate He | discriminate He ].
  exists e. split; [exact He | exact Hn].
Defined.

Lemma X12_witness :
  covered (fst (@BuildXDR example_codec ex_full))
  /\ snd (@BuildXDR example_codec (fst (@BuildXDR example_codec ex_full)))
     = snd (@BuildXDR example_codec
              (reset (fst (@BuildXDR example_codec ex_full)))).
Proof.
  assert (H : covered (fst (@BuildXDR example_codec ex_full)))
    by (repeat split; intros Hp; vm_compute in Hp; vm_compute;
        first [ discriminate | intros _; apply Hp; reflexivity ]).
  split; [exact H|].
  exact (@X12_covered_builder_is_as_new example_codec _ H).
Defined.

Lemma X13_witness :
  HomeDomain ex_emptied_home_domain = ""
  /\ exists rec,
       record_of (wrap (@final_op example_codec ex_emptied_home_domain)) = Some rec
       /\ xdr.HomeDomain rec = Some domain32.
Proof.
  split; [reflexivity|].
  destruct (@X13_empty_field_keeps_old_slot example_codec ex_emptied_home_domain
              (fst (@BuildXDR example_codec ex_emptied_home_domain))
              (wrap (@final_op example_codec ex_emptied_home_domain)) eq_refl)
    as (rec & Hrec & _ & _ & _ & _ & _ & _ & _ & Hhome & _).
  exists rec. split; [exact Hrec|]. exact (Hhome eq_refl).
Defined.

Lemma X14_witness :
  @inflation_resolves example_codec ex_domain40
  /\ (32 < String.length (HomeDomain ex_domain40))%nat
  /\ same_request (fst (@BuildXDR example_codec ex_domain40)) ex_domain40.
Proof.
  assert (Hi : @inflation_resolves example_codec ex_domain40)
    by (left; reflexivity).
  assert (Hl : (32 < String.length (HomeDomain ex_domain40))%nat) by (cbn; lia).
  split; [exact Hi|]. split; [exact Hl|].
  destruct (@X14_builder_after_a_failed_build example_codec ex_domain40)
    as (_ & Hhome).
  apply (Hhome Hi Hl).
Defined.

Lemma X15_witness :
  (1 <= String.length domain32 <= 32)%nat.
Proof.
  destruct (@X15_stored_home_domain_is_bounded example_codec ex_domain32 domain32
              eq_refl) as [H | (_ & H)]; [discriminate H | exact H].
Defined.

Lemma X16_witness :
  @inflation_resolves example_codec ex_remove_signer
  /\ Weight (Signer_ ex_remove_signer) = Some 0
  /\ exists so' rec,
       @BuildXDR example_codec ex_remove_signer = (so', Done (wrap rec, None))
       /\ xdr.Signer_ rec
          = Some {| xdr.Key := {| xdr.SignerKeyBytes := good_address |};
                    xdr.Weight := 0 |}.
Proof.
  assert (Hi : @inflation_resolves example_codec ex_remove_signer)
    by (left; reflexivity).
  assert (Hl : (String.length (HomeDomain ex_remove_signer) <= 32)%nat)
    by (cbn; lia).
  split; [exact Hi|]. split; [reflexivity|].
  exact (@X16_signer_is_paired_with_its_weight example_codec ex_remove_signer
           0 {| xdr.SignerKeyBytes := good_address |} Hi Hl eq_refl eq_refl).
Defined.

Lemma X17_witness :
  fresh ex_inflation
  /\ inflation_aliased (fst (@BuildXDR example_codec ex_inflation)).
Proof.
  split; [reflexivity|].
  destruct (@X17_inflation_slot_is_destAccountID example_codec ex_inflation)
    as (Hnew & Hkept).
  exact (Hkept (Hnew eq_refl)).
Defined.
